(** * raylib-gizmo, example 03: gizmo with render targets

    A shallow embedding of [examples/gizmo/example_03_render_targets.c]:
    four viewports, each rendered to its own texture and drawn to the window,
    with the translate gizmo forwarded to the viewport under the cursor.

    C [float] is IEEE-754 binary32, taken from the Standard Library's
    [SpecFloat] at precision 24 and maximal exponent 128; C [int] is [Z]
    (the program only handles the values 0, 1, 2, 3, 4, 270, 480, 540, 960
    and their negations).  Calls into raylib and raygizmo are recorded in a
    trace, in program order. *)

From Stdlib Require Import ZArith List String Bool Lia.
From Stdlib Require Import Floats.SpecFloat.
Import ListNotations.

Local Open Scope Z_scope.

(** ** C floats *)

Module F32.

Definition prec : Z := 24.
Definition emax : Z := 128.

Definition float : Type := spec_float.

Definition add : float -> float -> float := SFadd prec emax.
Definition sub : float -> float -> float := SFsub prec emax.
Definition mul : float -> float -> float := SFmul prec emax.
Definition div : float -> float -> float := SFdiv prec emax.
Definition opp : float -> float := SFopp.

(** [a < b], [a <= b] and [a >= b] of C; every comparison with a NaN is
    false. *)
Definition ltb (a b : float) : bool := SFltb a b.
Definition leb (a b : float) : bool := SFleb a b.
Definition geb (a b : float) : bool := SFleb b a.

(** The float [m * 2^e], rounded to nearest even. *)
Definition dyadic (m e : Z) : float := binary_normalize prec emax m e false.

(** [(float)n] for an [int] n. *)
Definition of_int (n : Z) : float := dyadic n 0.

(** [(int)f]: truncation toward zero.  The cast is undefined in C for a
    NaN, an infinity or a value outside the range of [int]; the model
    returns 0 for the first two. *)
Definition to_int (f : float) : Z :=
  match f with
  | S754_finite s m e => cond_Zopp s (Z.shiftl (Zpos m) e)
  | _ => 0
  end.

(** Same value as IEEE equality sees it on numbers: the same float, or two
    zeros (which may differ in sign). *)
Definition same_value (a b : float) : Prop :=
  a = b \/ (exists s t, a = S754_zero s /\ b = S754_zero t).

Definition zero : float := S754_zero false.
Definition one : float := of_int 1.
Definition half : float := dyadic 1 (-1).

End F32.

Abbreviation float := F32.float.

(** ** raylib's value types (raylib.h) *)

Record Vector2 := mkVector2 { v2x : float; v2y : float }.
Record Vector3 := mkVector3 { v3x : float; v3y : float; v3z : float }.
Record Quaternion := mkQuaternion { qx : float; qy : float; qz : float; qw : float }.
Record Color := mkColor { cr : Z; cg : Z; cb : Z; ca : Z }.
Record Rectangle := mkRectangle
  { rec_x : float; rec_y : float; rec_width : float; rec_height : float }.

Record Matrix := mkMatrix
  { m0 : float; m4 : float; m8 : float;  m12 : float;
    m1 : float; m5 : float; m9 : float;  m13 : float;
    m2 : float; m6 : float; m10 : float; m14 : float;
    m3 : float; m7 : float; m11 : float; m15 : float }.

Record Transform := mkTransform
  { translation : Vector3; rotation : Quaternion; scale : Vector3 }.

Record Texture := mkTexture { tex_id : Z; tex_width : Z; tex_height : Z }.
Record RenderTexture := mkRenderTexture
  { rt_id : Z; rt_texture : Texture; rt_depth : Texture }.

Inductive CameraProjection := CAMERA_PERSPECTIVE | CAMERA_ORTHOGRAPHIC.

Record Camera := mkCamera
  { cam_position : Vector3; cam_target : Vector3; cam_up : Vector3;
    cam_fovy : float; cam_projection : CameraProjection }.

Record Model := mkModel { model_transform : Matrix; model_albedo : Texture }.

Definition BLACK : Color := mkColor 0 0 0 255.
Definition PURPLE : Color := mkColor 200 122 255 255.
Definition ORANGE : Color := mkColor 255 161 0 255.
Definition RED : Color := mkColor 230 41 55 255.
Definition WHITE : Color := mkColor 255 255 255 255.

Definition Vector3Zero : Vector3 := mkVector3 F32.zero F32.zero F32.zero.

(** ** The viewport record of the example *)

Record Viewport := mkViewport
  { area : Rectangle;       (* Screen rectangle *)
    rt : RenderTexture;     (* Render target *)
    camera : Camera;        (* Per-viewport camera *)
    clearColor : Color }.   (* Background color *)

(** ** Constants and selectors of raylib.h and raygizmo.h used by [main] *)

Inductive ConfigFlag := FLAG_MSAA_4X_HINT.
Inductive TextureFilter := TEXTURE_FILTER_TRILINEAR.
Inductive GizmoFlags := GIZMO_DISABLED | GIZMO_TRANSLATE | GIZMO_ROTATE | GIZMO_SCALE.

Definition SCREEN_WIDTH : Z := 960.
Definition SCREEN_HEIGHT : Z := 540.
Definition VIEWPORT_COUNT : Z := 4.
Definition EXAMPLE_TITLE : string := "Example 03 - Gizmo With Render Targets".

(** ** The calls into raylib and raygizmo, as recorded in the trace *)

Inductive Call :=
| call_SetConfigFlags (f : ConfigFlag)
| call_InitWindow (width height : Z) (title : string)
| call_SetTargetFPS (fps : Z)
| call_LoadTexture (path : string)
| call_GenTextureMipmaps (t : Texture)
| call_SetTextureFilter (t : Texture) (f : TextureFilter)
| call_LoadModel (path : string)
| call_LoadRenderTexture (width height : Z)
| call_SetGizmoSize (size : float)
| call_BeginDrawing
| call_ClearBackground (c : Color)
| call_BeginTextureMode (target : RenderTexture)
| call_BeginMode3D (cam : Camera)
| call_DrawModel (m : Model) (position : Vector3) (scale : float) (tint : Color)
| call_SetMouseOffset (offsetX offsetY : Z)
| call_SetMouseScale (scaleX scaleY : float)
| call_DrawGizmo3D (flags : GizmoFlags) (pointer : Vector2) (before : Transform)
| call_EndMode3D
| call_EndTextureMode
| call_DrawTextureRec (t : Texture) (source : Rectangle) (position : Vector2) (tint : Color)
| call_EndDrawing
| call_UnloadRenderTexture (target : RenderTexture)
| call_UnloadTexture (t : Texture)
| call_UnloadModel (m : Model)
| call_CloseWindow.

(** What the windowing layer reports during one frame. *)
Record FrameInput := mkFrameInput
  { fi_mouse : Vector2;     (* pointer, window coordinates *)
    fi_left_down : bool }.  (* left button held *)

(** What the gizmo reads when it is drawn: the pointer as [GetMousePosition]
    returns it at that moment, the button, and the camera of the 3D mode it
    is drawn in. *)
Record GizmoInput := mkGizmoInput
  { gi_pointer : Vector2;
    gi_left_down : bool;
    gi_camera : option Camera }.

(** ** raygizmo.h as an interface

    The gizmo library is not part of the example; [main] is written against
    its header.  [G] is the library's private state. *)

Class RayGizmo (G : Type) := mkRayGizmo
  { gizmo_start : G;
    GizmoIdentity : Transform;
    GizmoToMatrix : Transform -> Matrix;
    gizmo_set_size : float -> G -> G;
    gizmo_draw : GizmoFlags -> GizmoInput -> G -> Transform -> G * Transform }.

(** ** raymath.h *)

Definition MatrixIdentity : Matrix :=
  mkMatrix F32.one F32.zero F32.zero F32.zero
           F32.zero F32.one F32.zero F32.zero
           F32.zero F32.zero F32.one F32.zero
           F32.zero F32.zero F32.zero F32.one.

(** ** raylib's collision test

    Modelled from the spec: raylib's [CheckCollisionPointRec] is not part of
    the example.  The spec calls it a rectangle containment test under which
    the four quadrants tile the window without overlap: a rectangle holds its
    left and top edge and not its right and bottom edge. *)
Definition CheckCollisionPointRec (point : Vector2) (rec : Rectangle) : bool :=
  F32.geb (v2x point) (rec_x rec)
  && F32.ltb (v2x point) (F32.add (rec_x rec) (rec_width rec))
  && F32.geb (v2y point) (rec_y rec)
  && F32.ltb (v2y point) (F32.add (rec_y rec) (rec_height rec)).

(** ** Arrays *)

Fixpoint array_set {A : Type} (l : list A) (i : nat) (a : A) : list A :=
  match l, i with
  | [], _ => []
  | _ :: t, O => a :: t
  | h :: t, S j => h :: array_set t j a
  end.

Definition garbage_texture : Texture := mkTexture 0 0 0.
Definition garbage_viewport : Viewport :=
  mkViewport (mkRectangle F32.zero F32.zero F32.zero F32.zero)
             (mkRenderTexture 0 garbage_texture garbage_texture)
             (mkCamera Vector3Zero Vector3Zero Vector3Zero F32.zero CAMERA_PERSPECTIVE)
             (mkColor 0 0 0 0).

Definition with_area (a : Rectangle) (v : Viewport) : Viewport :=
  mkViewport a (rt v) (camera v) (clearColor v).
Definition with_rt (r : RenderTexture) (v : Viewport) : Viewport :=
  mkViewport (area v) r (camera v) (clearColor v).
Definition with_camera (c : Camera) (v : Viewport) : Viewport :=
  mkViewport (area v) (rt v) c (clearColor v).
Definition with_clearColor (c : Color) (v : Viewport) : Viewport :=
  mkViewport (area v) (rt v) (camera v) c.

(** ** Local helper of the example (lines 57 to 66) *)

Definition CreateCamera (position target : Vector3) : Camera :=
  mkCamera position target
           (mkVector3 F32.zero F32.one F32.zero)
           (F32.of_int 45)
           CAMERA_PERSPECTIVE.

(** ** The program *)

Section Program.

Context {G : Type} {gz : RayGizmo G}.

(** Pixel size of the image files on disk. *)
Variable image_size : string -> Z * Z.

(** The state [main] runs in: raylib's mouse remap and pointer, the 3D mode
    in force, the next free GPU object id, raygizmo's private state, the
    calls made so far (oldest first), and [main]'s own variables. *)
Record State := mkState
  { mouse_current : Vector2;
    mouse_left_down : bool;
    mouse_offset : Vector2;
    mouse_scale : Vector2;
    mode3d : option Camera;
    gl_ids : Z;
    gizmo : G;
    calls : list Call;
    crateTexture : Texture;
    crateModel : Model;
    crateTransform : Transform;
    view : list Viewport }.

Definition set_mouse_current x s :=
  mkState x (mouse_left_down s) (mouse_offset s) (mouse_scale s) (mode3d s) (gl_ids s)
          (gizmo s) (calls s) (crateTexture s) (crateModel s) (crateTransform s) (view s).
Definition set_mouse_left_down x s :=
  mkState (mouse_current s) x (mouse_offset s) (mouse_scale s) (mode3d s) (gl_ids s)
          (gizmo s) (calls s) (crateTexture s) (crateModel s) (crateTransform s) (view s).
Definition set_mouse_offset x s :=
  mkState (mouse_current s) (mouse_left_down s) x (mouse_scale s) (mode3d s) (gl_ids s)
          (gizmo s) (calls s) (crateTexture s) (crateModel s) (crateTransform s) (view s).
Definition set_mouse_scale x s :=
  mkState (mouse_current s) (mouse_left_down s) (mouse_offset s) x (mode3d s) (gl_ids s)
          (gizmo s) (calls s) (crateTexture s) (crateModel s) (crateTransform s) (view s).
Definition set_mode3d x s :=
  mkState (mouse_current s) (mouse_left_down s) (mouse_offset s) (mouse_scale s) x (gl_ids s)
          (gizmo s) (calls s) (crateTexture s) (crateModel s) (crateTransform s) (view s).
Definition set_gl_ids x s :=
  mkState (mouse_current s) (mouse_left_down s) (mouse_offset s) (mouse_scale s) (mode3d s) x
          (gizmo s) (calls s) (crateTexture s) (crateModel s) (crateTransform s) (view s).
Definition set_gizmo x s :=
  mkState (mouse_current s) (mouse_left_down s) (mouse_offset s) (mouse_scale s) (mode3d s) (gl_ids s)
          x (calls s) (crateTexture s) (crateModel s) (crateTransform s) (view s).
Definition set_calls x s :=
  mkState (mouse_current s) (mouse_left_down s) (mouse_offset s) (mouse_scale s) (mode3d s) (gl_ids s)
          (gizmo s) x (crateTexture s) (crateModel s) (crateTransform s) (view s).
Definition set_crateTexture x s :=
  mkState (mouse_current s) (mouse_left_down s) (mouse_offset s) (mouse_scale s) (mode3d s) (gl_ids s)
          (gizmo s) (calls s) x (crateModel s) (crateTransform s) (view s).
Definition set_crateModel x s :=
  mkState (mouse_current s) (mouse_left_down s) (mouse_offset s) (mouse_scale s) (mode3d s) (gl_ids s)
          (gizmo s) (calls s) (crateTexture s) x (crateTransform s) (view s).
Definition set_crateTransform x s :=
  mkState (mouse_current s) (mouse_left_down s) (mouse_offset s) (mouse_scale s) (mode3d s) (gl_ids s)
          (gizmo s) (calls s) (crateTexture s) (crateModel s) x (view s).
Definition set_view x s :=
  mkState (mouse_current s) (mouse_left_down s) (mouse_offset s) (mouse_scale s) (mode3d s) (gl_ids s)
          (gizmo s) (calls s) (crateTexture s) (crateModel s) (crateTransform s) x.

(** *** The state monad of the program *)

Definition M (A : Type) : Type := State -> A * State.

Definition ret {A} (a : A) : M A := fun s => (a, s).
Definition bind {A B} (m : M A) (k : A -> M B) : M B :=
  fun s => let (a, s') := m s in k a s'.

Notation "x <- m ;; k" := (bind m (fun x => k))
  (at level 61, m at next level, right associativity).
Notation "m ;; k" := (bind m (fun _ => k))
  (at level 61, right associativity).

Definition exec {A} (m : M A) (s : State) : State := snd (m s).

Definition record (c : Call) : M unit :=
  fun s => (tt, set_calls (calls s ++ [c]) s).

(** C's [for (i = lo; i < lo + n; ++i) body]. *)
Fixpoint for_from (lo : Z) (n : nat) (body : Z -> M unit) : M unit :=
  match n with
  | O => ret tt
  | S n' => body lo ;; for_from (lo + 1) n' body
  end.

Definition for_upto (hi : Z) (body : Z -> M unit) : M unit :=
  for_from 0 (Z.to_nat hi) body.

(** Variables of [main], read and written in place. *)
Record Ref (A : Type) := mkRef { load : State -> A; store : A -> State -> State }.
Arguments load {A}.
Arguments store {A}.

Definition read {A} (r : Ref A) : M A := fun s => (load r s, s).
Definition assign {A} (r : Ref A) (a : A) : M unit := fun s => (tt, store r a s).
Definition modify {A} (r : Ref A) (f : A -> A) : M unit :=
  fun s => (tt, store r (f (load r s)) s).

Definition crateTexture_var : Ref Texture := mkRef _ crateTexture set_crateTexture.
Definition crateModel_var : Ref Model := mkRef _ crateModel set_crateModel.
Definition crateTransform_var : Ref Transform := mkRef _ crateTransform set_crateTransform.

(** [view[i]] *)
Definition view_at (i : Z) : Ref Viewport :=
  mkRef _ (fun s => nth (Z.to_nat i) (view s) garbage_viewport)
          (fun v s => set_view (array_set (view s) (Z.to_nat i) v) s).

(** *** raylib, as far as [main] observes it *)

Definition gl_fresh : M Z :=
  fun s => (gl_ids s + 1, set_gl_ids (gl_ids s + 1) s).

Definition SetConfigFlags (f : ConfigFlag) : M unit := record (call_SetConfigFlags f).

(** Modelled from the spec: raylib's window is not part of the example.
    The spec has the mouse remap transient, the identity (offset 0, scale 1)
    outside the drawing of a gizmo; a new window applies none. *)
Definition InitWindow (width height : Z) (title : string) : M unit :=
  record (call_InitWindow width height title) ;;
  fun s => (tt, set_mouse_scale (mkVector2 F32.one F32.one)
                  (set_mouse_offset (mkVector2 F32.zero F32.zero) s)).

Definition TextFormat (prefix arg : string) : string := (prefix ++ arg)%string.

Definition SetTargetFPS (fps : Z) : M unit := record (call_SetTargetFPS fps).

Definition LoadTexture (path : string) : M Texture :=
  record (call_LoadTexture path) ;;
  id <- gl_fresh ;;
  ret (mkTexture id (fst (image_size path)) (snd (image_size path))).

Definition GenTextureMipmaps (t : Ref Texture) : M unit :=
  tex <- read t ;; record (call_GenTextureMipmaps tex).

Definition SetTextureFilter (t : Texture) (f : TextureFilter) : M unit :=
  record (call_SetTextureFilter t f).

Definition LoadModel (path : string) : M Model :=
  record (call_LoadModel path) ;;
  ret (mkModel MatrixIdentity garbage_texture).

(** Modelled from the spec: raylib's [LoadRenderTexture] is not part of the
    example.  The spec has it create an offscreen colour and depth target of
    the given pixel size, and takes allocation to succeed once the program
    runs. *)
Definition LoadRenderTexture (width height : Z) : M RenderTexture :=
  record (call_LoadRenderTexture width height) ;;
  fbo <- gl_fresh ;;
  color <- gl_fresh ;;
  depth <- gl_fresh ;;
  ret (mkRenderTexture fbo (mkTexture color width height) (mkTexture depth width height)).

Definition BeginDrawing : M unit := record call_BeginDrawing.
Definition EndDrawing : M unit := record call_EndDrawing.
Definition ClearBackground (c : Color) : M unit := record (call_ClearBackground c).
Definition BeginTextureMode (target : RenderTexture) : M unit :=
  record (call_BeginTextureMode target).
Definition EndTextureMode : M unit := record call_EndTextureMode.

Definition BeginMode3D (cam : Camera) : M unit :=
  record (call_BeginMode3D cam) ;;
  fun s => (tt, set_mode3d (Some cam) s).
Definition EndMode3D : M unit :=
  record call_EndMode3D ;;
  fun s => (tt, set_mode3d None s).

Definition DrawModel (m : Model) (position : Vector3) (scale : float) (tint : Color) : M unit :=
  record (call_DrawModel m position scale tint).

(** Modelled from the spec: raylib's mouse remap is not part of the example.
    The spec has an additive pixel offset and a multiplicative scale applied
    to the global pointer position: the offset is added, then the scale
    multiplies. *)
Definition GetMousePosition : M Vector2 :=
  fun s =>
    (mkVector2
       (F32.mul (F32.add (v2x (mouse_current s)) (v2x (mouse_offset s))) (v2x (mouse_scale s)))
       (F32.mul (F32.add (v2y (mouse_current s)) (v2y (mouse_offset s))) (v2y (mouse_scale s))),
     s).

Definition SetMouseOffset (offsetX offsetY : Z) : M unit :=
  record (call_SetMouseOffset offsetX offsetY) ;;
  fun s => (tt, set_mouse_offset (mkVector2 (F32.of_int offsetX) (F32.of_int offsetY)) s).

Definition SetMouseScale (scaleX scaleY : float) : M unit :=
  record (call_SetMouseScale scaleX scaleY) ;;
  fun s => (tt, set_mouse_scale (mkVector2 scaleX scaleY) s).

Definition DrawTextureRec (t : Texture) (source : Rectangle) (position : Vector2)
    (tint : Color) : M unit :=
  record (call_DrawTextureRec t source position tint).

Definition UnloadRenderTexture (target : RenderTexture) : M unit :=
  record (call_UnloadRenderTexture target).
Definition UnloadTexture (t : Texture) : M unit := record (call_UnloadTexture t).
Definition UnloadModel (m : Model) : M unit := record (call_UnloadModel m).
Definition CloseWindow : M unit := record call_CloseWindow.

(** The windowing layer makes the input of the coming frame current. *)
Definition poll (input : FrameInput) : M unit :=
  fun s => (tt, set_mouse_left_down (fi_left_down input)
                  (set_mouse_current (fi_mouse input) s)).

(** *** raygizmo, through its interface *)

Definition SetGizmoSize (size : float) : M unit :=
  record (call_SetGizmoSize size) ;;
  fun s => (tt, set_gizmo (gizmo_set_size size (gizmo s)) s).

(** [DrawGizmo3D(flags, &transform)]: the gizmo reads the pointer through
    [GetMousePosition], hence through the remap in force, and may write the
    transform it is given. *)
Definition DrawGizmo3D (flags : GizmoFlags) (transform : Ref Transform) : M unit :=
  pointer <- GetMousePosition ;;
  before <- read transform ;;
  record (call_DrawGizmo3D flags pointer before) ;;
  fun s =>
    let r := gizmo_draw flags (mkGizmoInput pointer (mouse_left_down s) (mode3d s))
                        (gizmo s) before in
    (tt, store transform (snd r) (set_gizmo (fst r) s)).

(** *** [main] *)

Definition BACK_COLORS : list Color := [BLACK; PURPLE; ORANGE; RED].

Definition CAM_POSITIONS : list Vector3 :=
  [ mkVector3 (F32.dyadic (-11) (-1)) (F32.dyadic 11 (-1)) (F32.of_int 2);
    mkVector3 (F32.dyadic 11 (-1)) (F32.dyadic 11 (-1)) (F32.of_int 2);
    mkVector3 (F32.dyadic (-5) (-1)) (F32.dyadic 5 (-1)) (F32.of_int 2);
    mkVector3 (F32.dyadic 5 (-1)) (F32.dyadic 5 (-1)) (F32.of_int 2) ].

Definition HALF_W : float := F32.mul (F32.of_int SCREEN_WIDTH) F32.half.
Definition HALF_H : float := F32.mul (F32.of_int SCREEN_HEIGHT) F32.half.

Definition with_transform (m : Matrix) (model : Model) : Model :=
  mkModel m (model_albedo model).
Definition with_albedo (t : Texture) (model : Model) : Model :=
  mkModel (model_transform model) t.

(** Body of the loop that fills [view] (lines 107 to 116). *)
Definition configure_viewport (i : Z) : M unit :=
  let col := F32.of_int (Z.rem i 2) in
  let row := F32.of_int (Z.quot i 2) in
  modify (view_at i)
         (with_area (mkRectangle (F32.mul col HALF_W) (F32.mul row HALF_H) HALF_W HALF_H)) ;;
  modify (view_at i) (with_clearColor (nth (Z.to_nat i) BACK_COLORS (mkColor 0 0 0 0))) ;;
  modify (view_at i)
         (with_camera (CreateCamera (nth (Z.to_nat i) CAM_POSITIONS Vector3Zero)
                                    (mkVector3 F32.zero F32.zero F32.zero))) ;;
  target <- LoadRenderTexture (F32.to_int HALF_W) (F32.to_int HALF_H) ;;
  modify (view_at i) (with_rt target).

(** Body of the per-viewport loop of a frame (lines 129 to 166). *)
Definition viewport_pass (i : Z) : M unit :=
  v <- read (view_at i) ;;
  (* Render the scene to the viewport's render target *)
  BeginTextureMode (rt v) ;;
  ClearBackground (clearColor v) ;;
  BeginMode3D (camera v) ;;
  t <- read crateTransform_var ;;
  modify crateModel_var (with_transform (GizmoToMatrix t)) ;;
  model <- read crateModel_var ;;
  DrawModel model Vector3Zero F32.one WHITE ;;
  (* Activate gizmo if mouse is inside this viewport *)
  pointer <- GetMousePosition ;;
  (if CheckCollisionPointRec pointer (area v)
   then
     SetMouseOffset (- F32.to_int (rec_x (area v))) (- F32.to_int (rec_y (area v))) ;;
     SetMouseScale (F32.div (F32.of_int (tex_width (rt_texture (rt v)))) (rec_width (area v)))
                   (F32.div (F32.of_int (tex_height (rt_texture (rt v)))) (rec_height (area v))) ;;
     DrawGizmo3D GIZMO_TRANSLATE crateTransform_var ;;
     SetMouseOffset 0 0 ;;
     SetMouseScale F32.one F32.one
   else ret tt) ;;
  EndMode3D ;;
  EndTextureMode ;;
  (* Draw the render target to the window *)
  DrawTextureRec (rt_texture (rt v))
                 (mkRectangle (F32.of_int 0) (F32.of_int 0)
                              (F32.of_int (tex_width (rt_texture (rt v))))
                              (F32.opp (F32.of_int (tex_height (rt_texture (rt v))))))
                 (mkVector2 (rec_x (area v)) (rec_y (area v)))
                 WHITE.

(** One turn of the main loop (lines 126 to 168). *)
Definition frame : M unit :=
  BeginDrawing ;;
  ClearBackground (mkColor 0 0 25 255) ;;
  for_upto VIEWPORT_COUNT viewport_pass ;;
  EndDrawing.

(** [while (!WindowShouldClose()) ...]: the script lists the frames before
    the close request, each with the input current during it. *)
Fixpoint main_loop (script : list FrameInput) : M unit :=
  match script with
  | [] => ret tt
  | input :: rest => poll input ;; frame ;; main_loop rest
  end.

(** Lines 76 to 119. *)
Definition initialization : M unit :=
  SetConfigFlags FLAG_MSAA_4X_HINT ;;
  InitWindow SCREEN_WIDTH SCREEN_HEIGHT (TextFormat "raylib-gizmo | " EXAMPLE_TITLE) ;;
  SetTargetFPS 60 ;;
  (* Load assets *)
  tex <- LoadTexture "resources/textures/crate_texture.jpg" ;;
  assign crateTexture_var tex ;;
  GenTextureMipmaps crateTexture_var ;;
  tex <- read crateTexture_var ;;
  SetTextureFilter tex TEXTURE_FILTER_TRILINEAR ;;
  model <- LoadModel "resources/models/crate_model.obj" ;;
  assign crateModel_var model ;;
  tex <- read crateTexture_var ;;
  modify crateModel_var (with_albedo tex) ;;
  (* Initial transform for the crate (will be modified by the gizmo) *)
  assign crateTransform_var GizmoIdentity ;;
  (* Viewport configuration *)
  for_upto VIEWPORT_COUNT configure_viewport ;;
  (* Increase the gizmo size for better visibility *)
  SetGizmoSize (F32.of_int 4).

(** Lines 174 to 177. *)
Definition cleanup : M unit :=
  for_upto VIEWPORT_COUNT (fun i => v <- read (view_at i) ;; UnloadRenderTexture (rt v)) ;;
  tex <- read crateTexture_var ;;
  UnloadTexture tex ;;
  model <- read crateModel_var ;;
  UnloadModel model ;;
  CloseWindow.

Definition main (script : list FrameInput) : M Z :=
  initialization ;;
  main_loop script ;;
  cleanup ;;
  ret 0.

(** The process as it starts: nothing called, no GPU object, [view] an
    array of four viewports not yet written. *)
Definition process_start : State :=
  mkState (mkVector2 F32.zero F32.zero) false
          (mkVector2 F32.zero F32.zero) (mkVector2 F32.zero F32.zero)
          None 0 gizmo_start []
          garbage_texture (mkModel MatrixIdentity garbage_texture)
          (mkTransform Vector3Zero (mkQuaternion F32.zero F32.zero F32.zero F32.zero) Vector3Zero)
          (repeat garbage_viewport (Z.to_nat VIEWPORT_COUNT)).

End Program.

Arguments State G : clear implicits.
Arguments M G : clear implicits.
Arguments load {G A}.
Arguments store {G A}.

(** ** The gizmo library, as far as the spec describes it *)

Module GizmoSpec.

(** The matrices of raymath.h that the composition below multiplies:
    translation in the last column, scale on the diagonal, the rotation
    matrix of a quaternion, and the 4 x 4 product. *)
Definition MatrixTranslate (x y z : float) : Matrix :=
  mkMatrix F32.one F32.zero F32.zero x
           F32.zero F32.one F32.zero y
           F32.zero F32.zero F32.one z
           F32.zero F32.zero F32.zero F32.one.

Definition MatrixScale (x y z : float) : Matrix :=
  mkMatrix x F32.zero F32.zero F32.zero
           F32.zero y F32.zero F32.zero
           F32.zero F32.zero z F32.zero
           F32.zero F32.zero F32.zero F32.one.

Definition QuaternionToMatrix (q : Quaternion) : Matrix :=
  let two := F32.of_int 2 in
  let a2 := F32.mul (qx q) (qx q) in
  let b2 := F32.mul (qy q) (qy q) in
  let c2 := F32.mul (qz q) (qz q) in
  let ac := F32.mul (qx q) (qz q) in
  let ab := F32.mul (qx q) (qy q) in
  let bc := F32.mul (qy q) (qz q) in
  let ad := F32.mul (qw q) (qx q) in
  let bd := F32.mul (qw q) (qy q) in
  let cd := F32.mul (qw q) (qz q) in
  mkMatrix
    (F32.sub F32.one (F32.mul two (F32.add b2 c2)))
    (F32.mul two (F32.sub ab cd))
    (F32.mul two (F32.add ac bd))
    F32.zero
    (F32.mul two (F32.add ab cd))
    (F32.sub F32.one (F32.mul two (F32.add a2 c2)))
    (F32.mul two (F32.sub bc ad))
    F32.zero
    (F32.mul two (F32.sub ac bd))
    (F32.mul two (F32.add bc ad))
    (F32.sub F32.one (F32.mul two (F32.add a2 b2)))
    F32.zero
    F32.zero F32.zero F32.zero F32.one.

Definition dot4 (a b c d a' b' c' d' : float) : float :=
  F32.add (F32.add (F32.add (F32.mul a a') (F32.mul b b')) (F32.mul c c')) (F32.mul d d').

Definition MatrixMultiply (l r : Matrix) : Matrix :=
  mkMatrix
    (dot4 (m0 l) (m1 l) (m2 l) (m3 l) (m0 r) (m4 r) (m8 r) (m12 r))
    (dot4 (m4 l) (m5 l) (m6 l) (m7 l) (m0 r) (m4 r) (m8 r) (m12 r))
    (dot4 (m8 l) (m9 l) (m10 l) (m11 l) (m0 r) (m4 r) (m8 r) (m12 r))
    (dot4 (m12 l) (m13 l) (m14 l) (m15 l) (m0 r) (m4 r) (m8 r) (m12 r))
    (dot4 (m0 l) (m1 l) (m2 l) (m3 l) (m1 r) (m5 r) (m9 r) (m13 r))
    (dot4 (m4 l) (m5 l) (m6 l) (m7 l) (m1 r) (m5 r) (m9 r) (m13 r))
    (dot4 (m8 l) (m9 l) (m10 l) (m11 l) (m1 r) (m5 r) (m9 r) (m13 r))
    (dot4 (m12 l) (m13 l) (m14 l) (m15 l) (m1 r) (m5 r) (m9 r) (m13 r))
    (dot4 (m0 l) (m1 l) (m2 l) (m3 l) (m2 r) (m6 r) (m10 r) (m14 r))
    (dot4 (m4 l) (m5 l) (m6 l) (m7 l) (m2 r) (m6 r) (m10 r) (m14 r))
    (dot4 (m8 l) (m9 l) (m10 l) (m11 l) (m2 r) (m6 r) (m10 r) (m14 r))
    (dot4 (m12 l) (m13 l) (m14 l) (m15 l) (m2 r) (m6 r) (m10 r) (m14 r))
    (dot4 (m0 l) (m1 l) (m2 l) (m3 l) (m3 r) (m7 r) (m11 r) (m15 r))
    (dot4 (m4 l) (m5 l) (m6 l) (m7 l) (m3 r) (m7 r) (m11 r) (m15 r))
    (dot4 (m8 l) (m9 l) (m10 l) (m11 l) (m3 r) (m7 r) (m11 r) (m15 r))
    (dot4 (m12 l) (m13 l) (m14 l) (m15 l) (m3 r) (m7 r) (m11 r) (m15 r)).

(** Modelled from the spec: raygizmo's [GizmoIdentity] is not part of the
    example.  The spec has it represent an identity transform: no
    translation, the identity rotation, unit scale. *)
Definition GizmoIdentity : Transform :=
  mkTransform (mkVector3 F32.zero F32.zero F32.zero)
              (mkQuaternion F32.zero F32.zero F32.zero F32.one)
              (mkVector3 F32.one F32.one F32.one).

(** The orders in which the three parts of a transform can be composed. *)
Inductive Order := SRT | STR | RST | RTS | TSR | TRS.

(** Modelled from the spec: raygizmo's [GizmoToMatrix] is not part of the
    example.  The spec has it compose position, rotation and scale into a
    world matrix in a fixed order that the library defines; the order is
    left as a parameter. *)
Definition GizmoToMatrix (order : Order) (t : Transform) : Matrix :=
  let S := MatrixScale (v3x (scale t)) (v3y (scale t)) (v3z (scale t)) in
  let R := QuaternionToMatrix (rotation t) in
  let T := MatrixTranslate (v3x (translation t)) (v3y (translation t)) (v3z (translation t)) in
  match order with
  | SRT => MatrixMultiply (MatrixMultiply S R) T
  | STR => MatrixMultiply (MatrixMultiply S T) R
  | RST => MatrixMultiply (MatrixMultiply R S) T
  | RTS => MatrixMultiply (MatrixMultiply R T) S
  | TSR => MatrixMultiply (MatrixMultiply T S) R
  | TRS => MatrixMultiply (MatrixMultiply T R) S
  end.

(** A gizmo library with the spec's identity and composition; its handle
    size, its private state and what drawing does to a transform are those
    given. *)
Definition library (order : Order) {G : Type} (start : G)
    (set_size : float -> G -> G)
    (draw : GizmoFlags -> GizmoInput -> G -> Transform -> G * Transform) : RayGizmo G :=
  mkRayGizmo G start GizmoIdentity (GizmoToMatrix order) set_size draw.

(** A translate gizmo for running the program: while the button is held it
    moves the transform to the pointer; its state counts the draws. *)
Definition drag (flags : GizmoFlags) (input : GizmoInput) (n : Z) (t : Transform)
    : Z * Transform :=
  (n + 1,
   match flags, gi_left_down input with
   | GIZMO_TRANSLATE, true =>
       mkTransform (mkVector3 (v2x (gi_pointer input)) (v2y (gi_pointer input))
                              (v3z (translation t)))
                   (rotation t) (scale t)
   | _, _ => t
   end).

Definition drag_library : RayGizmo Z := library SRT 0 (fun _ n => n) drag.

End GizmoSpec.

(** No image on disk matters to what is proved; runs take them 256 x 256. *)
Definition disk (path : string) : Z * Z := (256, 256).

(** ** Reading runs of the program *)

(** [rect x y w h] is [(Rectangle){x, y, w, h}] for integers. *)
Definition rect (x y w h : Z) : Rectangle :=
  mkRectangle (F32.of_int x) (F32.of_int y) (F32.of_int w) (F32.of_int h).

Definition window : Rectangle := rect 0 0 SCREEN_WIDTH SCREEN_HEIGHT.

(** The four viewports as [main] leaves them after its configuration loop:
    quadrant i, render target i (GPU ids 2 + 3i and the next two; id 1 is
    the crate texture), camera i, colour i. *)
Definition registry_entry (i : Z) : Viewport :=
  mkViewport (rect (480 * (i mod 2)) (270 * (i / 2)) 480 270)
             (mkRenderTexture (2 + 3 * i)
                              (mkTexture (3 + 3 * i) 480 270)
                              (mkTexture (4 + 3 * i) 480 270))
             (CreateCamera (nth (Z.to_nat i) CAM_POSITIONS Vector3Zero) Vector3Zero)
             (nth (Z.to_nat i) BACK_COLORS (mkColor 0 0 0 0)).

Definition registry : list Viewport := map registry_entry [0; 1; 2; 3].

Definition quadrants : list Rectangle :=
  [rect 0 0 480 270; rect 480 0 480 270; rect 0 270 480 270; rect 480 270 480 270].

(** How many of the rectangles hold the point. *)
Definition holders (p : Vector2) (rs : list Rectangle) : nat :=
  List.length (filter (CheckCollisionPointRec p) rs).

(** Index of the first viewport whose rectangle holds the point. *)
Fixpoint first_holder (p : Vector2) (vs : list Viewport) : option nat :=
  match vs with
  | [] => None
  | v :: rest =>
      if CheckCollisionPointRec p (area v) then Some O
      else option_map S (first_holder p rest)
  end.

(** Order of the floats that are not NaN, as [SFcompare] sees it: by class
    (-inf, negative, zero, positive, +inf), then exponent, then mantissa. *)
Definition order_key (f : float) : option (Z * Z * Z) :=
  match f with
  | S754_nan => None
  | S754_infinity true => Some (-2, 0, 0)
  | S754_infinity false => Some (2, 0, 0)
  | S754_zero _ => Some (0, 0, 0)
  | S754_finite true m e => Some (-1, - e, Zneg m)
  | S754_finite false m e => Some (1, e, Zpos m)
  end.

Definition key_lt (a b : Z * Z * Z) : Prop :=
  let '(a1, a2, a3) := a in
  let '(b1, b2, b3) := b in
  a1 < b1 \/ (a1 = b1 /\ (a2 < b2 \/ (a2 = b2 /\ a3 < b3))).

Definition key_le (a b : Z * Z * Z) : Prop :=
  let '(a1, a2, a3) := a in
  let '(b1, b2, b3) := b in
  a1 < b1 \/ (a1 = b1 /\ (a2 < b2 \/ (a2 = b2 /\ a3 <= b3))).

Definition lt_keys (x y : float) : Prop :=
  match order_key x, order_key y with
  | Some a, Some b => key_lt a b
  | _, _ => False
  end.

Definition le_keys (x y : float) : Prop :=
  match order_key x, order_key y with
  | Some a, Some b => key_le a b
  | _, _ => False
  end.

(** [lo <= x && x < hi], one axis of the collision test. *)
Definition inside (x lo hi : float) : bool := F32.geb x lo && F32.ltb x hi.

(** Trace readers. *)

Definition drawn_transform (c : Call) : list Matrix :=
  match c with
  | call_DrawModel m _ _ _ => [model_transform m]
  | _ => []
  end.

(** The world matrices the model was drawn with, in order. *)
Definition drawn_matrices (tr : list Call) : list Matrix := flat_map drawn_transform tr.

(** The render targets that were bound when a gizmo was drawn, in order. *)
Fixpoint gizmo_targets (bound : option RenderTexture) (tr : list Call) : list RenderTexture :=
  match tr with
  | [] => []
  | call_BeginTextureMode t :: rest => gizmo_targets (Some t) rest
  | call_EndTextureMode :: rest => gizmo_targets None rest
  | call_DrawGizmo3D _ _ _ :: rest =>
      match bound with
      | Some t => t :: gizmo_targets bound rest
      | None => gizmo_targets bound rest
      end
  | _ :: rest => gizmo_targets bound rest
  end.

Definition is_gizmo_draw (c : Call) : bool :=
  match c with call_DrawGizmo3D _ _ _ => true | _ => false end.

Definition is_remap (c : Call) : bool :=
  match c with
  | call_SetMouseOffset _ _ | call_SetMouseScale _ _ => true
  | _ => false
  end.

Definition is_release (c : Call) : bool :=
  match c with
  | call_UnloadRenderTexture _ | call_UnloadTexture _ | call_UnloadModel _
  | call_CloseWindow => true
  | _ => false
  end.

Definition is_composite (c : Call) : bool :=
  match c with call_DrawTextureRec _ _ _ _ => true | _ => false end.

(** Modelled from the spec: raylib's [DrawTextureRec] is not part of the
    example.  The spec has it draw a region of a texture into the window at
    a position, without scaling, a source rectangle of negative height being
    flipped vertically.  [shown_at source position x y] is the window pixel
    that shows texel (x, y), if the region holds it: the region's columns
    run rightward from the position and its rows downward, in reverse order
    along an axis whose extent is negative. *)
Definition shown_at (source : Rectangle) (position : Vector2) (x y : Z) : option (Z * Z) :=
  let sx := F32.to_int (rec_x source) in
  let sy := F32.to_int (rec_y source) in
  let w := F32.to_int (rec_width source) in
  let h := F32.to_int (rec_height source) in
  let px := F32.to_int (v2x position) in
  let py := F32.to_int (v2y position) in
  if (sx <=? x) && (x <? sx + Z.abs w) && (sy <=? y) && (y <? sy + Z.abs h)
  then Some (px + (if w <? 0 then Z.abs w - 1 - (x - sx) else x - sx),
             py + (if h <? 0 then Z.abs h - 1 - (y - sy) else y - sy))
  else None.

(** Where a compositing call shows a texel. *)
Definition shows (c : Call) (x y : Z) : option (Z * Z) :=
  match c with
  | call_DrawTextureRec _ source position _ => shown_at source position x y
  | _ => None
  end.

(** The frame input with the pointer at window pixel (x, y). *)
Definition input_at (x y : Z) (left_down : bool) : FrameInput :=
  mkFrameInput (mkVector2 (F32.of_int x) (F32.of_int y)) left_down.

Section Reading.

Context {G : Type} {gz : RayGizmo G}.
Variable image_size : string -> Z * Z.

(** What [GetMousePosition] returns in a state. *)
Definition pointer (s : State G) : Vector2 := fst (GetMousePosition s).

(** Whether the pass of viewport i takes the gizmo branch in a state. *)
Definition active (i : Z) (s : State G) : bool :=
  CheckCollisionPointRec (pointer s) (area (load (view_at i) s)).

Definition remap_identity (s : State G) : Prop :=
  mouse_offset s = mkVector2 (F32.of_int 0) (F32.of_int 0)
  /\ mouse_scale s = mkVector2 F32.one F32.one.

(** What holds whenever [main] is in its loop: [view] is the registry and no
    mouse remap is in force. *)
Definition running (s : State G) : Prop := view s = registry /\ remap_identity s.

(** The pointer in window coordinates that [GetMousePosition] returns while
    no remap is in force. *)
Definition window_pointer (pos : Vector2) : Vector2 :=
  mkVector2 (F32.mul (F32.add (v2x pos) (F32.of_int 0)) F32.one)
            (F32.mul (F32.add (v2y pos) (F32.of_int 0)) F32.one).

(** The calls a computation adds to the trace. *)
Definition emitted {A} (m : M G A) (s : State G) : list Call :=
  skipn (List.length (calls s)) (calls (exec m s)).

(** The state in which the frame after [before], with input [input], begins. *)
Definition at_frame (before : list FrameInput) (input : FrameInput) : State G :=
  exec (poll input) (exec (main_loop before) (exec (initialization image_size) process_start)).

(** The state in which pass [k] of that frame begins. *)
Definition at_pass (before : list FrameInput) (input : FrameInput) (k : nat) : State G :=
  exec (for_from 0 k viewport_pass)
       (exec (ClearBackground (mkColor 0 0 25 255)) (exec BeginDrawing (at_frame before input))).

(** The pointer the gizmo of viewport [v] reads: the remap [v] installs,
    applied to the window pointer. *)
Definition remapped (v : Viewport) (s : State G) : Vector2 :=
  mkVector2
    (F32.mul (F32.add (v2x (mouse_current s)) (F32.of_int (- F32.to_int (rec_x (area v)))))
             (F32.div (F32.of_int (tex_width (rt_texture (rt v)))) (rec_width (area v))))
    (F32.mul (F32.add (v2y (mouse_current s)) (F32.of_int (- F32.to_int (rec_y (area v)))))
             (F32.div (F32.of_int (tex_height (rt_texture (rt v)))) (rec_height (area v)))).

(** [local = (window - rect.origin) * (targetSize / rectSize)]. *)
Definition local_of (pos : Vector2) (v : Viewport) : Vector2 :=
  mkVector2
    (F32.mul (F32.sub (v2x pos) (rec_x (area v)))
             (F32.div (F32.of_int (tex_width (rt_texture (rt v)))) (rec_width (area v))))
    (F32.mul (F32.sub (v2y pos) (rec_y (area v)))
             (F32.div (F32.of_int (tex_height (rt_texture (rt v)))) (rec_height (area v)))).

(** The three stretches of calls of a pass. *)
Definition scene_calls (v : Viewport) (m : Model) : list Call :=
  [ call_BeginTextureMode (rt v); call_ClearBackground (clearColor v);
    call_BeginMode3D (camera v); call_DrawModel m Vector3Zero F32.one WHITE ].

Definition gizmo_calls (v : Viewport) (p : Vector2) (t : Transform) : list Call :=
  [ call_SetMouseOffset (- F32.to_int (rec_x (area v))) (- F32.to_int (rec_y (area v)));
    call_SetMouseScale
      (F32.div (F32.of_int (tex_width (rt_texture (rt v)))) (rec_width (area v)))
      (F32.div (F32.of_int (tex_height (rt_texture (rt v)))) (rec_height (area v)));
    call_DrawGizmo3D GIZMO_TRANSLATE p t;
    call_SetMouseOffset 0 0;
    call_SetMouseScale F32.one F32.one ].

Definition composite_calls (v : Viewport) : list Call :=
  [ call_EndMode3D; call_EndTextureMode;
    call_DrawTextureRec
      (rt_texture (rt v))
      (mkRectangle (F32.of_int 0) (F32.of_int 0)
                   (F32.of_int (tex_width (rt_texture (rt v))))
                   (F32.opp (F32.of_int (tex_height (rt_texture (rt v))))))
      (mkVector2 (rec_x (area v)) (rec_y (area v)))
      WHITE ].

(** What the gizmo of viewport [v] returns when drawn in a state. *)
Definition gizmo_result (v : Viewport) (s : State G) : G * Transform :=
  gizmo_draw GIZMO_TRANSLATE
             (mkGizmoInput (remapped v s) (mouse_left_down s) (mode3d s))
             (gizmo s) (crateTransform s).

(** In a frame only the first viewport, in the order of the array, whose
    rectangle holds the pointer draws the gizmo. *)
Definition first_only_active (s : State G) : Prop :=
  gizmo_targets None (emitted frame s)
  = match first_holder (pointer s) (view s) with
    | Some i => [rt (nth i (view s) garbage_viewport)]
    | None => []
    end.

(** The state a pass leaves, written out. *)
Definition pass_outcome (i : Z) (s : State G) : State G :=
  let v := load (view_at i) s in
  let model := with_transform (GizmoToMatrix (crateTransform s)) (crateModel s) in
  if active i s
  then
    let before := crateTransform s in
    let r := gizmo_result v (set_mode3d (Some (camera v)) s) in
    mkState (mouse_current s) (mouse_left_down s)
            (mkVector2 (F32.of_int 0) (F32.of_int 0)) (mkVector2 F32.one F32.one)
            None (gl_ids s) (fst r)
            (calls s ++ scene_calls v model ++ gizmo_calls v (remapped v s) before
                     ++ composite_calls v)
            (crateTexture s) model (snd r) (view s)
  else
    mkState (mouse_current s) (mouse_left_down s) (mouse_offset s) (mouse_scale s)
            None (gl_ids s) (gizmo s)
            (calls s ++ scene_calls v model ++ composite_calls v)
            (crateTexture s) model (crateTransform s) (view s).

End Reading.

(** A state of the loop as [main] never builds it: the first viewport
    covers the whole window, so that it overlaps the other three. *)
Definition overlapping : State Z :=
  mkState (mkVector2 (F32.of_int 500) (F32.of_int 300)) false
          (mkVector2 (F32.of_int 0) (F32.of_int 0)) (mkVector2 F32.one F32.one)
          None 13 0 [] (mkTexture 1 256 256)
          (mkModel MatrixIdentity (mkTexture 1 256 256))
          GizmoSpec.GizmoIdentity
          [ with_area window (registry_entry 0); registry_entry 1;
            registry_entry 2; registry_entry 3 ].

(** ** Reading whole runs *)

(** Where a program stands with the drawing calls it has made: before the
    window exists, between frames, inside [BeginDrawing], inside
    [BeginTextureMode], inside [BeginMode3D], after [CloseWindow]. *)
Inductive Phase := Unopened | Idle | Drawing | InTexture | In3D | Closed.

(** The calls each phase admits, and the phase they lead to.  Assets and
    render targets are loaded and unloaded between frames; a render target
    is cleared and entered in 3D inside its texture mode; the model, the
    gizmo and its mouse remap belong to the 3D mode; a texture is drawn to
    the window inside [BeginDrawing] and outside any texture mode. *)
Definition nest (ph : Phase) (c : Call) : option Phase :=
  match ph, c with
  | Unopened, call_SetConfigFlags _ => Some Unopened
  | Unopened, call_InitWindow _ _ _ => Some Idle
  | Idle, call_SetTargetFPS _ | Idle, call_LoadTexture _
  | Idle, call_GenTextureMipmaps _ | Idle, call_SetTextureFilter _ _
  | Idle, call_LoadModel _ | Idle, call_LoadRenderTexture _ _
  | Idle, call_SetGizmoSize _ | Idle, call_UnloadRenderTexture _
  | Idle, call_UnloadTexture _ | Idle, call_UnloadModel _ => Some Idle
  | Idle, call_BeginDrawing => Some Drawing
  | Idle, call_CloseWindow => Some Closed
  | Drawing, call_ClearBackground _ | Drawing, call_DrawTextureRec _ _ _ _ => Some Drawing
  | Drawing, call_BeginTextureMode _ => Some InTexture
  | Drawing, call_EndDrawing => Some Idle
  | InTexture, call_ClearBackground _ => Some InTexture
  | InTexture, call_BeginMode3D _ => Some In3D
  | InTexture, call_EndTextureMode => Some Drawing
  | In3D, call_DrawModel _ _ _ _ | In3D, call_SetMouseOffset _ _
  | In3D, call_SetMouseScale _ _ | In3D, call_DrawGizmo3D _ _ _ => Some In3D
  | In3D, call_EndMode3D => Some InTexture
  | _, _ => None
  end.

(** The phase a trace leads to, if every call of it is admitted. *)
Fixpoint nesting (ph : Phase) (tr : list Call) : option Phase :=
  match tr with
  | [] => Some ph
  | c :: rest =>
      match nest ph c with
      | Some ph' => nesting ph' rest
      | None => None
      end
  end.

(** What a frame does with its render targets, in order. *)
Inductive Stage :=
| rendered (target : RenderTexture) (clear : Color) (cam : Camera)
| composited (t : Texture) (position : Vector2).

Fixpoint stages (tr : list Call) : list Stage :=
  match tr with
  | call_BeginTextureMode target :: call_ClearBackground c :: call_BeginMode3D cam :: rest =>
      rendered target c cam :: stages rest
  | call_DrawTextureRec t _ position _ :: rest => composited t position :: stages rest
  | _ :: rest => stages rest
  | [] => []
  end.

Definition is_load (c : Call) : bool :=
  match c with
  | call_LoadTexture _ | call_LoadModel _ | call_LoadRenderTexture _ _ => true
  | _ => false
  end.

Definition is_frame_begin (c : Call) : bool :=
  match c with call_BeginDrawing => true | _ => false end.

Definition is_frame_end (c : Call) : bool :=
  match c with call_EndDrawing => true | _ => false end.

(** A call that draws the model draws it with this texture, at the origin,
    unscaled and untinted. *)
Definition draws_crate (t : Texture) (c : Call) : Prop :=
  match c with
  | call_DrawModel m position scale tint =>
      model_albedo m = t /\ position = Vector3Zero /\ scale = F32.one /\ tint = WHITE
  | _ => True
  end.

(** Whether the pointer of a frame input is in the window. *)
Definition in_window (input : FrameInput) : bool :=
  CheckCollisionPointRec
    (mkVector2 (F32.mul (F32.add (v2x (fi_mouse input)) (F32.of_int 0)) F32.one)
               (F32.mul (F32.add (v2y (fi_mouse input)) (F32.of_int 0)) F32.one))
    window.

(** A float that is a NaN or an infinity. *)
Definition not_finite (f : float) : bool :=
  match f with
  | S754_nan | S754_infinity _ => true
  | _ => false
  end.

Section ReadingRuns.

Context {G : Type} {gz : RayGizmo G}.
Variable image_size : string -> Z * Z.

(** The state in which pass [k] of the frame that starts in [s] begins. *)
Definition pass_start (s : State G) (k : nat) : State G :=
  exec (for_from 0 k viewport_pass)
       (exec (ClearBackground (mkColor 0 0 25 255)) (exec BeginDrawing s)).

(** The calls of each frame of the loop, run on a script from a state. *)
Fixpoint frame_traces (script : list FrameInput) (s : State G) : list (list Call) :=
  match script with
  | [] => []
  | input :: rest =>
      emitted frame (exec (poll input) s)
      :: frame_traces rest (exec frame (exec (poll input) s))
  end.

(** The calls of [main] before its loop. *)
Definition setup_calls : list Call :=
  calls (exec (initialization image_size) process_start).

(** The calls of [main] after its loop. *)
Definition teardown_calls (model : Model) : list Call :=
  [ call_UnloadRenderTexture (rt (registry_entry 0));
    call_UnloadRenderTexture (rt (registry_entry 1));
    call_UnloadRenderTexture (rt (registry_entry 2));
    call_UnloadRenderTexture (rt (registry_entry 3));
    call_UnloadTexture
      (mkTexture 1 (fst (image_size "resources/textures/crate_texture.jpg"))
                   (snd (image_size "resources/textures/crate_texture.jpg")));
    call_UnloadModel model;
    call_CloseWindow ].

End ReadingRuns.

(** ** Tactics for running the program on a state *)

Ltac run :=
  cbv [bind read modify assign record ret exec fst snd load store
       BeginDrawing EndDrawing BeginTextureMode ClearBackground BeginMode3D DrawModel
       EndMode3D EndTextureMode DrawTextureRec SetMouseOffset SetMouseScale DrawGizmo3D
       GetMousePosition UnloadRenderTexture UnloadTexture UnloadModel CloseWindow poll
       crateTransform_var crateModel_var crateTexture_var view_at
       mouse_current mouse_left_down mouse_offset mouse_scale mode3d gl_ids gizmo calls
       crateTexture crateModel crateTransform view
       set_mouse_current set_mouse_left_down set_mouse_offset set_mouse_scale set_mode3d
       set_gl_ids set_gizmo set_calls set_crateTexture set_crateModel set_crateTransform
       set_view].

Ltac run_in H :=
  cbv [bind read modify assign record ret exec fst snd load store
       BeginDrawing EndDrawing BeginTextureMode ClearBackground BeginMode3D DrawModel
       EndMode3D EndTextureMode DrawTextureRec SetMouseOffset SetMouseScale DrawGizmo3D
       GetMousePosition UnloadRenderTexture UnloadTexture UnloadModel CloseWindow poll
       crateTransform_var crateModel_var crateTexture_var view_at
       mouse_current mouse_left_down mouse_offset mouse_scale mode3d gl_ids gizmo calls
       crateTexture crateModel crateTransform view
       set_mouse_current set_mouse_left_down set_mouse_offset set_mouse_scale set_mode3d
       set_gl_ids set_gizmo set_calls set_crateTexture set_crateModel set_crateTransform
       set_view] in H.

(** The state a computation leaves, written out, when it starts from a
    state written out. *)
Ltac ran t :=
  let x := eval cbv [pass_outcome active pointer gizmo_result remapped
       nth Z.to_nat Pos.to_nat Pos.iter_op Init.Nat.add
       bind read modify assign record ret exec fst snd load store
       BeginDrawing EndDrawing BeginTextureMode ClearBackground BeginMode3D DrawModel
       EndMode3D EndTextureMode DrawTextureRec SetMouseOffset SetMouseScale DrawGizmo3D
       GetMousePosition UnloadRenderTexture UnloadTexture UnloadModel CloseWindow poll
       crateTransform_var crateModel_var crateTexture_var view_at
       mouse_current mouse_left_down mouse_offset mouse_scale mode3d gl_ids gizmo calls
       crateTexture crateModel crateTransform view
       set_mouse_current set_mouse_left_down set_mouse_offset set_mouse_scale set_mode3d
       set_gl_ids set_gizmo set_calls set_crateTexture set_crateModel set_crateTransform
       set_view] in t in
  let x := eval cbn [v2x v2y] in x in
  x.

(** Run the innermost pass of [EF], which starts from a state written out,
    on both outcomes of its collision test; [H] bounds the holders. *)
Ltac pass_step EF H :=
  match type of EF with
  | context [pass_outcome ?i (mkState ?a ?b ?c ?d ?e ?f ?g ?h ?k ?l ?m ?n)] =>
      let x := ran (pass_outcome i (mkState a b c d e f g h k l m n)) in
      change (pass_outcome i (mkState a b c d e f g h k l m n)) with x in EF;
      match type of EF with
      | context [if CheckCollisionPointRec ?p ?r then _ else _] =>
          let B := fresh "B" in
          destruct (CheckCollisionPointRec p r) eqn:B
      end;
      try (exfalso; cbn [List.length] in H; lia)
  end.

(** * Facts *)

(** ** The order of floats *)

Section FloatOrder.

Lemma SFcompare_key (x y : float) :
  forall c, SFcompare x y = Some c ->
  exists a b, order_key x = Some a /\ order_key y = Some b /\
    match c with
    | Lt => key_lt a b
    | Eq => a = b
    | Gt => key_lt b a
    end.
Proof.
  intros c H.
  destruct x as [sx | sx | | sx mx ex], y as [sy | sy | | sy my ey];
    try discriminate H;
    try destruct sx; try destruct sy; cbn in H |- *;
    injection H as <-;
    do 2 eexists; (split; [reflexivity |]); (split; [reflexivity |]);
    cbn; try lia; try reflexivity.
  - destruct (Z.compare_spec ex ey) as [E | E | E]; try lia.
    subst ey.
    change (Pos.compare_cont Eq mx my) with (Pos.compare mx my).
    destruct (Pos.compare_spec mx my) as [E | E | E]; cbn; [subst; reflexivity | lia | lia].
  - destruct (Z.compare_spec ex ey) as [E | E | E]; try lia.
    subst ey.
    change (Pos.compare_cont Eq mx my) with (Pos.compare mx my).
    destruct (Pos.compare_spec mx my) as [E | E | E]; cbn; [subst; reflexivity | lia | lia].
Qed.

Lemma SFcompare_total (x y : float) a b :
  order_key x = Some a -> order_key y = Some b -> exists c, SFcompare x y = Some c.
Proof.
  destruct x as [sx | sx | | sx mx ex], y as [sy | sy | | sy my ey]; cbn;
    try discriminate; intros _ _; eexists; reflexivity.
Qed.

Lemma key_order_exclusive (a b : Z * Z * Z) :
  (key_lt a b -> a <> b /\ ~ key_lt b a) /\ (a = b -> ~ key_lt a b).
Proof.
  destruct a as [[a1 a2] a3], b as [[b1 b2] b3]; unfold key_lt.
  split.
  - intros H; split.
    + intros E; injection E as -> -> ->. lia.
    + lia.
  - intros E; injection E as -> -> ->. lia.
Qed.

Lemma ltb_iff (x y : float) : lt_keys x y <-> F32.ltb x y = true.
Proof.
  unfold F32.ltb, SFltb, lt_keys.
  destruct (SFcompare x y) as [c | ] eqn:E.
  - destruct (SFcompare_key x y c E) as (a & b & -> & -> & R).
    destruct (key_order_exclusive a b) as [X Y], (key_order_exclusive b a) as [X' Y'].
    destruct c; intuition congruence.
  - destruct (order_key x) as [a | ] eqn:Ka; [ | intuition congruence].
    destruct (order_key y) as [b | ] eqn:Kb; [ | intuition congruence].
    destruct (SFcompare_total x y a b Ka Kb) as [c C]. congruence.
Qed.

Lemma leb_iff (x y : float) : le_keys x y <-> F32.leb x y = true.
Proof.
  unfold F32.leb, SFleb, le_keys.
  destruct (SFcompare x y) as [c | ] eqn:E.
  - destruct (SFcompare_key x y c E) as (a & b & -> & -> & R).
    destruct a as [[a1 a2] a3], b as [[b1 b2] b3]; unfold key_le.
    destruct c; unfold key_lt in R;
      [ injection R as -> -> -> | | ];
      (split; [ intros H; try reflexivity; exfalso; lia
              | intros H; try discriminate H; lia ]).
  - destruct (order_key x) as [a | ] eqn:Ka; [ | intuition congruence].
    destruct (order_key y) as [b | ] eqn:Kb; [ | intuition congruence].
    destruct (SFcompare_total x y a b Ka Kb) as [c C]. congruence.
Qed.

Lemma keys_cut (lo mid hi x : float) :
  lt_keys lo mid -> lt_keys mid hi ->
  ((le_keys lo x /\ lt_keys x hi) <->
   ((le_keys lo x /\ lt_keys x mid) \/ (le_keys mid x /\ lt_keys x hi)))
  /\ ~ (lt_keys x mid /\ le_keys mid x).
Proof.
  unfold lt_keys, le_keys.
  destruct (order_key x) as [[[x1 x2] x3] | ],
           (order_key lo) as [[[l1 l2] l3] | ],
           (order_key mid) as [[[d1 d2] d3] | ],
           (order_key hi) as [[[h1 h2] h3] | ];
    cbn; try tauto; lia.
Qed.

Lemma inside_iff (x lo hi : float) :
  inside x lo hi = true <-> le_keys lo x /\ lt_keys x hi.
Proof.
  unfold inside, F32.geb. rewrite andb_true_iff, <- leb_iff, <- ltb_iff. tauto.
Qed.

(** A band [lo, hi) cut at [mid] falls into [lo, mid) and [mid, hi), which
    share no point. *)
Lemma band_cut (lo mid hi x : float) :
  F32.ltb lo mid = true -> F32.ltb mid hi = true ->
  inside x lo hi = (inside x lo mid || inside x mid hi)%bool
  /\ (inside x lo mid && inside x mid hi)%bool = false.
Proof.
  intros L1 L2. apply ltb_iff in L1, L2.
  destruct (keys_cut lo mid hi x L1 L2) as [C D].
  split.
  - apply eq_true_iff_eq. rewrite orb_true_iff, !inside_iff. exact C.
  - apply not_true_is_false. rewrite andb_true_iff, !inside_iff. tauto.
Qed.

End FloatOrder.

(** ** The quadrants *)

Lemma collision_axes (p : Vector2) (r : Rectangle) :
  CheckCollisionPointRec p r
  = (inside (v2x p) (rec_x r) (F32.add (rec_x r) (rec_width r))
     && inside (v2y p) (rec_y r) (F32.add (rec_y r) (rec_height r)))%bool.
Proof. unfold CheckCollisionPointRec, inside. rewrite !andb_assoc. reflexivity. Qed.

Lemma registry_areas : map area registry = quadrants.
Proof. reflexivity. Qed.

(** A point of the window lies in exactly one quadrant, any other point in
    none. *)
Lemma quadrants_tile (p : Vector2) :
  holders p quadrants = if CheckCollisionPointRec p window then 1%nat else 0%nat.
Proof.
  destruct p as [x y].
  unfold holders, quadrants, window, rect, SCREEN_WIDTH, SCREEN_HEIGHT. cbn [filter].
  rewrite !collision_axes. cbn [rec_x rec_y rec_width rec_height v2x v2y].
  change (F32.add (F32.of_int 0) (F32.of_int 480)) with (F32.of_int 480).
  change (F32.add (F32.of_int 480) (F32.of_int 480)) with (F32.of_int 960).
  change (F32.add (F32.of_int 0) (F32.of_int 960)) with (F32.of_int 960).
  change (F32.add (F32.of_int 0) (F32.of_int 270)) with (F32.of_int 270).
  change (F32.add (F32.of_int 270) (F32.of_int 270)) with (F32.of_int 540).
  change (F32.add (F32.of_int 0) (F32.of_int 540)) with (F32.of_int 540).
  destruct (band_cut (F32.of_int 0) (F32.of_int 480) (F32.of_int 960) x eq_refl eq_refl)
    as [Ex Dx].
  destruct (band_cut (F32.of_int 0) (F32.of_int 270) (F32.of_int 540) y eq_refl eq_refl)
    as [Ey Dy].
  rewrite Ex, Ey.
  destruct (inside x (F32.of_int 0) (F32.of_int 480)),
           (inside x (F32.of_int 480) (F32.of_int 960)),
           (inside y (F32.of_int 0) (F32.of_int 270)),
           (inside y (F32.of_int 270) (F32.of_int 540));
    try discriminate Dx; try discriminate Dy; reflexivity.
Qed.

Lemma quadrants_one_holder (p : Vector2) : (holders p quadrants <= 1)%nat.
Proof. rewrite quadrants_tile. destruct (CheckCollisionPointRec p window); lia. Qed.

(** ** One pass *)

Section ProgramFacts.

Context {G : Type} {gz : RayGizmo G}.
Variable image_size : string -> Z * Z.

Lemma viewport_pass_outcome (i : Z) (s : State G) :
  viewport_pass i s = (tt, pass_outcome i s).
Proof.
  destruct s.
  unfold viewport_pass, pass_outcome, active, pointer, gizmo_result, remapped,
    scene_calls, gizmo_calls, composite_calls.
  run.
  destruct (CheckCollisionPointRec _ _); rewrite <- ?app_assoc; reflexivity.
Qed.

Lemma exec_bind {A B} (m : M G A) (k : A -> M G B) (s : State G) :
  exec (bind m k) s = exec (k (fst (m s))) (exec m s).
Proof. unfold exec, bind. destruct (m s); reflexivity. Qed.

Lemma exec_pass (i : Z) (s : State G) : exec (viewport_pass i) s = pass_outcome i s.
Proof. unfold exec. rewrite viewport_pass_outcome. reflexivity. Qed.

Lemma emitted_exactly {A} (m : M G A) (s : State G) (l : list Call) :
  calls (exec m s) = calls s ++ l -> emitted m s = l.
Proof.
  unfold emitted. intros ->.
  rewrite skipn_app, skipn_all, Nat.sub_diag. reflexivity.
Qed.

(** ** One frame *)

Lemma frame_unfold (s : State G) :
  exec frame s =
  exec EndDrawing
    (pass_outcome 3 (pass_outcome 2 (pass_outcome 1 (pass_outcome 0
       (exec (ClearBackground (mkColor 0 0 25 255)) (exec BeginDrawing s)))))).
Proof.
  unfold frame, for_upto.
  change (Z.to_nat VIEWPORT_COUNT) with 4%nat.
  cbn [for_from]. change (0 + 1) with 1. change (1 + 1) with 2. change (2 + 1) with 3.
  rewrite !exec_bind, !exec_pass. reflexivity.
Qed.

(** Everything later facts need of a frame that starts with no remap in
    force, four viewports, and at most one of them under the pointer. *)
Lemma frame_summary (s : State G) (v0 v1 v2 v3 : Viewport) :
  view s = [v0; v1; v2; v3] ->
  remap_identity s ->
  (holders (pointer s) (map area (view s)) <= 1)%nat ->
  let hit := first_holder (pointer s) (view s) in
  let v := fun i => nth i (view s) garbage_viewport in
  let t := crateTransform s in
  let t' := match hit with
            | Some i => snd (gizmo_result (v i) (set_mode3d (Some (camera (v i))) s))
            | None => t
            end in
  gizmo_targets None (emitted frame s)
    = match hit with Some i => [rt (v i)] | None => [] end
  /\ filter (fun c => is_remap c || is_gizmo_draw c) (emitted frame s)
    = match hit with Some i => gizmo_calls (v i) (remapped (v i) s) t | None => [] end
  /\ crateTransform (exec frame s) = t'
  /\ drawn_matrices (emitted frame s)
    = match hit with
      | Some i => repeat (GizmoToMatrix t) (S i) ++ repeat (GizmoToMatrix t') (3 - i)
      | None => repeat (GizmoToMatrix t) 4
      end
  /\ filter is_composite (emitted frame s)
    = flat_map (fun w => filter is_composite (composite_calls w)) (view s)
  /\ filter is_release (emitted frame s) = []
  /\ view (exec frame s) = view s
  /\ remap_identity (exec frame s)
  /\ crateTexture (exec frame s) = crateTexture s
  /\ calls (exec frame s) = calls s ++ emitted frame s.
Proof.
  destruct s as [mc ld off sc m3 ids g tr tex model t vs].
  unfold remap_identity, holders. cbn [view mouse_offset mouse_scale crateTransform].
  intros -> [-> ->] H.
  unfold pointer in H. run_in H. cbn [v2x v2y map filter] in H.
  unfold emitted. cbn [calls].
  remember (exec frame _) as F eqn:EF.
  rewrite frame_unfold in EF.
  match type of EF with context [exec (ClearBackground ?c) (exec BeginDrawing ?s)] =>
    let x := ran (exec (ClearBackground c) (exec BeginDrawing s)) in
    change (exec (ClearBackground c) (exec BeginDrawing s)) with x in EF
  end.
  pass_step EF H; pass_step EF H; pass_step EF H; pass_step EF H;
    match type of EF with context [exec EndDrawing ?s] =>
      let x := ran (exec EndDrawing s) in change (exec EndDrawing s) with x in EF
    end;
    subst F; clear H;
    unfold first_holder, pointer; run; cbn [v2x v2y nth];
    repeat match goal with B : CheckCollisionPointRec _ _ = _ |- _ => rewrite B; clear B end;
    cbn [calls crateTransform view crateTexture option_map mouse_offset mouse_scale];
    rewrite <- !app_assoc, skipn_app, skipn_all, Nat.sub_diag;
    cbn [skipn app];
    unfold remap_identity; repeat split; reflexivity.
Qed.

(** The loop has no tie-break: every viewport whose rectangle holds the
    pointer draws the gizmo, in the order of the array. *)
Lemma frame_gizmo_targets (mc : Vector2) (ld : bool) (m3 : option Camera) (ids : Z) (g : G)
    (tr : list Call) (tex : Texture) (model : Model) (t : Transform)
    (v0 v1 v2 v3 : Viewport) :
  let s := mkState mc ld (mkVector2 (F32.of_int 0) (F32.of_int 0))
                   (mkVector2 F32.one F32.one) m3 ids g tr tex model t [v0; v1; v2; v3] in
  gizmo_targets None (emitted frame s)
  = map rt (filter (fun v => CheckCollisionPointRec (pointer s) (area v)) (view s)).
Proof.
  intros s. subst s.
  assert (H : True) by exact I.
  unfold emitted. cbn [calls].
  remember (exec frame _) as F eqn:EF.
  rewrite frame_unfold in EF.
  match type of EF with context [exec (ClearBackground ?c) (exec BeginDrawing ?s)] =>
    let x := ran (exec (ClearBackground c) (exec BeginDrawing s)) in
    change (exec (ClearBackground c) (exec BeginDrawing s)) with x in EF
  end.
  pass_step EF H; pass_step EF H; pass_step EF H; pass_step EF H;
    match type of EF with context [exec EndDrawing ?s] =>
      let x := ran (exec EndDrawing s) in change (exec EndDrawing s) with x in EF
    end;
    subst F; clear H;
    unfold pointer; run; cbn [v2x v2y filter];
    repeat match goal with B : CheckCollisionPointRec _ _ = _ |- _ => rewrite B; clear B end;
    rewrite <- !app_assoc, skipn_app, skipn_all, Nat.sub_diag;
    reflexivity.
Qed.

(** A pass that installs a remap removes it; a pass that installs none
    leaves the remap as it was. *)
Lemma pass_remap (i : Z) (s : State G) :
  let s' := exec (viewport_pass i) s in
  let v := load (view_at i) s in
  if active i s
  then remap_identity s'
       /\ filter is_remap (emitted (viewport_pass i) s)
          = [ call_SetMouseOffset (- F32.to_int (rec_x (area v))) (- F32.to_int (rec_y (area v)));
              call_SetMouseScale
                (F32.div (F32.of_int (tex_width (rt_texture (rt v)))) (rec_width (area v)))
                (F32.div (F32.of_int (tex_height (rt_texture (rt v)))) (rec_height (area v)));
              call_SetMouseOffset 0 0;
              call_SetMouseScale F32.one F32.one ]
  else mouse_offset s' = mouse_offset s /\ mouse_scale s' = mouse_scale s
       /\ filter is_remap (emitted (viewport_pass i) s) = [].
Proof.
  cbv zeta. unfold emitted. rewrite exec_pass. unfold pass_outcome, remap_identity.
  destruct (active i s); cbn [calls mouse_offset mouse_scale];
    rewrite skipn_app, skipn_all, Nat.sub_diag; repeat split; reflexivity.
Qed.

(** The calls of a pass, in order: the scene, drawn with the transform as
    the pass finds it; then, under the pointer only, the gizmo inside its
    remap; then the compositing draw. *)
Lemma pass_trace (i : Z) (s : State G) :
  let v := load (view_at i) s in
  emitted (viewport_pass i) s
  = scene_calls v (with_transform (GizmoToMatrix (crateTransform s)) (crateModel s))
    ++ (if active i s then gizmo_calls v (remapped v s) (crateTransform s) else [])
    ++ composite_calls v.
Proof.
  cbv zeta. apply emitted_exactly. rewrite exec_pass. unfold pass_outcome.
  destruct (active i s); reflexivity.
Qed.

Lemma pass_keeps_identity (i : Z) (s : State G) :
  remap_identity s -> remap_identity (exec (viewport_pass i) s).
Proof.
  intros [O S]. pose proof (pass_remap i s) as H. cbv zeta in H.
  destruct (active i s).
  - apply H.
  - destruct H as (H1 & H2 & _). unfold remap_identity. rewrite H1, H2. auto.
Qed.

Lemma passes_keep_identity (k : nat) (lo : Z) (s : State G) :
  remap_identity s -> remap_identity (exec (for_from lo k viewport_pass) s).
Proof.
  revert lo s. induction k as [ | k IH]; intros lo s H.
  - exact H.
  - cbn [for_from]. rewrite exec_bind. apply IH, pass_keeps_identity, H.
Qed.

Lemma for_from_snoc (k : nat) (lo : Z) (body : Z -> M G unit) (s : State G) :
  exec (for_from lo (S k) body) s
  = exec (body (lo + Z.of_nat k)) (exec (for_from lo k body) s).
Proof.
  revert lo s. induction k as [ | k IH]; intros lo s.
  - cbn [for_from]. rewrite !exec_bind. cbn. rewrite Z.add_0_r. reflexivity.
  - change (for_from lo (S (S k)) body)
      with (bind (body lo) (fun _ => for_from (lo + 1) (S k) body)).
    rewrite exec_bind, IH.
    cbn [for_from]. rewrite exec_bind.
    replace (lo + 1 + Z.of_nat k) with (lo + Z.of_nat (S k)) by lia.
    reflexivity.
Qed.

(** ** The whole run *)

Lemma initialization_outcome :
  let s := exec (initialization image_size) process_start in
  running s
  /\ crateTransform s = GizmoIdentity
  /\ filter is_release (calls s) = []
  /\ crateTexture s
     = mkTexture 1 (fst (image_size "resources/textures/crate_texture.jpg"))
                   (snd (image_size "resources/textures/crate_texture.jpg")).
Proof. unfold running, remap_identity. repeat split; reflexivity. Qed.

Lemma frame_running (s : State G) :
  running s ->
  running (exec frame s)
  /\ crateTexture (exec frame s) = crateTexture s
  /\ calls (exec frame s) = calls s ++ emitted frame s
  /\ filter is_release (emitted frame s) = [].
Proof.
  intros [V R].
  assert (H : (holders (pointer s) (map area (view s)) <= 1)%nat).
  { rewrite V, registry_areas. apply quadrants_one_holder. }
  destruct (frame_summary s (registry_entry 0) (registry_entry 1) (registry_entry 2)
              (registry_entry 3) V R H)
    as (_ & _ & _ & _ & _ & Hrel & Hview & Hid & Htex & Hcalls).
  unfold running. rewrite Hview. auto.
Qed.

Lemma main_loop_running (script : list FrameInput) (s : State G) :
  running s ->
  running (exec (main_loop script) s)
  /\ crateTexture (exec (main_loop script) s) = crateTexture s
  /\ exists body, calls (exec (main_loop script) s) = calls s ++ body
                  /\ filter is_release body = [].
Proof.
  revert s. induction script as [ | input rest IH]; intros s Hs.
  - cbn. repeat split; try apply Hs. exists []. rewrite app_nil_r. auto.
  - cbn [main_loop]. rewrite !exec_bind.
    set (s1 := exec (poll input) s).
    assert (H1 : running s1 /\ crateTexture s1 = crateTexture s /\ calls s1 = calls s).
    { destruct s, Hs as [V R]. subst s1. unfold running, remap_identity in *.
      cbn in *. auto. }
    destruct H1 as (R1 & T1 & C1).
    destruct (frame_running s1 R1) as (R2 & T2 & C2 & F2).
    destruct (IH _ R2) as (R3 & T3 & body & C3 & F3).
    repeat split; try apply R3.
    + rewrite T3, T2, T1. reflexivity.
    + exists (emitted frame s1 ++ body).
      rewrite C3, C2, C1, app_assoc. split; [reflexivity | ].
      rewrite filter_app, F2, F3. reflexivity.
Qed.

Lemma at_frame_running (before : list FrameInput) (input : FrameInput) :
  running (at_frame image_size before input)
  /\ mouse_current (at_frame image_size before input) = fi_mouse input.
Proof.
  unfold at_frame.
  destruct initialization_outcome as (R0 & _).
  destruct (main_loop_running before _ R0) as (R1 & _).
  destruct (exec (main_loop before) _), R1 as [V R].
  unfold running, remap_identity in *. cbn in *. auto.
Qed.

End ProgramFacts.

(** * The claims *)

Section Claims.

Context {G : Type} {gz : RayGizmo G}.
Variable image_size : string -> Z * Z.

Lemma pointer_running (s : State G) :
  running s -> pointer s = window_pointer (mouse_current s).
Proof.
  intros [_ [O S]]. unfold pointer, window_pointer, GetMousePosition. cbn [fst].
  rewrite O, S. reflexivity.
Qed.

Lemma running_frame_summary (s : State G) :
  running s ->
  let hit := first_holder (pointer s) registry in
  let v := fun i => nth i registry garbage_viewport in
  let t := crateTransform s in
  let t' := match hit with
            | Some i => snd (gizmo_result (v i) (set_mode3d (Some (camera (v i))) s))
            | None => t
            end in
  gizmo_targets None (emitted frame s)
    = match hit with Some i => [rt (v i)] | None => [] end
  /\ filter (fun c => is_remap c || is_gizmo_draw c) (emitted frame s)
    = match hit with Some i => gizmo_calls (v i) (remapped (v i) s) t | None => [] end
  /\ crateTransform (exec frame s) = t'
  /\ drawn_matrices (emitted frame s)
    = match hit with
      | Some i => repeat (GizmoToMatrix t) (S i) ++ repeat (GizmoToMatrix t') (3 - i)
      | None => repeat (GizmoToMatrix t) 4
      end
  /\ filter is_composite (emitted frame s)
    = flat_map (fun w => filter is_composite (composite_calls w)) registry.
Proof.
  intros [V R].
  assert (H : (holders (pointer s) (map area (view s)) <= 1)%nat).
  { rewrite V, registry_areas. apply quadrants_one_holder. }
  pose proof (frame_summary s (registry_entry 0) (registry_entry 1) (registry_entry 2)
                (registry_entry 3) V R H) as F.
  cbv zeta in F. rewrite V in F.
  destruct F as (F1 & F2 & F3 & F4 & F5 & _).
  cbv zeta. auto.
Qed.

(** C4.  The four viewport rectangles [main] builds are, in the order of
    the array, {0,0,480,270}, {480,0,480,270}, {0,270,480,270} and
    {480,270,480,270}: each is the window halved in both directions, and
    together they tile the 960 x 540 window: every point of the window lies
    in exactly one of them, and every other point in none. *)
Theorem C4_quadrants_tile_the_window :
  map area (view (exec (initialization image_size) process_start))
  = [rect 0 0 480 270; rect 480 0 480 270; rect 0 270 480 270; rect 480 270 480 270]
  /\ HALF_W = F32.of_int (SCREEN_WIDTH / 2)
  /\ HALF_H = F32.of_int (SCREEN_HEIGHT / 2)
  /\ forall p : Vector2,
       holders p (map area (view (exec (initialization image_size) process_start)))
       = if CheckCollisionPointRec p window then 1%nat else 0%nat.
Proof.
  assert (V : map area (view (exec (initialization image_size) process_start)) = quadrants)
    by (vm_compute; reflexivity).
  split; [ exact V | ].
  split; [ vm_compute; reflexivity | ].
  split; [ vm_compute; reflexivity | ].
  intros p. rewrite V. apply quadrants_tile.
Qed.

(** C1.  In every frame of [main] at most one viewport is active, that is
    draws the gizmo: the pointer never lies in two of the four rectangles,
    and the viewport that draws the gizmo is the first, in the order of the
    array, whose rectangle holds the pointer, so that a pointer held by
    more than one rectangle would activate the first of them only.  The
    gizmo call of that viewport is the only writer of the crate transform
    in the frame, and with no holder the transform is not written. *)
Theorem C1_active_viewports (before : list FrameInput) (input : FrameInput) :
  let s := at_frame image_size before input in
  let hit := first_holder (pointer s) (view s) in
  (holders (pointer s) (map area (view s)) <= 1)%nat
  /\ first_only_active s
  /\ (List.length (filter is_gizmo_draw (emitted frame s)) <= 1)%nat
  /\ match hit with
     | Some i =>
         let v := nth i (view s) garbage_viewport in
         CheckCollisionPointRec (pointer s) (area v) = true
         /\ filter is_gizmo_draw (emitted frame s)
            = [call_DrawGizmo3D GIZMO_TRANSLATE (remapped v s) (crateTransform s)]
         /\ crateTransform (exec frame s)
            = snd (gizmo_result v (set_mode3d (Some (camera v)) s))
     | None =>
         filter is_gizmo_draw (emitted frame s) = []
         /\ crateTransform (exec frame s) = crateTransform s
     end.
Proof.
  cbv zeta.
  destruct (at_frame_running image_size before input) as [Hrun _].
  revert Hrun. generalize (at_frame image_size before input). intros s Hrun.
  pose proof (running_frame_summary s Hrun) as F. cbv zeta in F.
  destruct Hrun as [V R]. unfold first_only_active. rewrite V.
  destruct F as (F1 & F2 & F3 & F4 & F5).
  assert (D : filter is_gizmo_draw (emitted frame s)
              = filter is_gizmo_draw
                  (filter (fun c => is_remap c || is_gizmo_draw c) (emitted frame s))).
  { generalize (emitted frame s). intros l. induction l as [ | c l IH]; [reflexivity | ].
    cbn [filter]. destruct c; cbn [is_remap is_gizmo_draw orb filter];
      rewrite <- ?IH; reflexivity. }
  rewrite D, F2. clear D.
  split; [ rewrite registry_areas; apply quadrants_one_holder | ].
  split; [ exact F1 | ].
  destruct (first_holder (pointer s) registry) as [i | ] eqn:Hit.
  - split; [ cbn [gizmo_calls filter is_gizmo_draw is_remap List.length]; lia | ].
    split; [ | split; [reflexivity | exact F3] ].
    revert Hit. unfold registry. cbn [map first_holder].
    repeat match goal with
           | |- context [if CheckCollisionPointRec ?p ?r then _ else _] =>
               destruct (CheckCollisionPointRec p r) eqn:?
           end; cbn [option_map]; intros E; inversion E; subst; cbn [nth]; assumption.
  - cbn [filter List.length]. auto.
Qed.

Lemma holders_none (p : Vector2) (vs : list Viewport) :
  holders p (map area vs) = 0%nat -> first_holder p vs = None.
Proof.
  unfold holders. induction vs as [ | v vs IH]; [reflexivity | ].
  cbn [map filter first_holder].
  destruct (CheckCollisionPointRec p (area v)); [discriminate | ].
  intros H. rewrite (IH H). reflexivity.
Qed.

Lemma first_holder_registry (p : Vector2) (i : nat) :
  first_holder p registry = Some i -> In i [0; 1; 2; 3]%nat.
Proof.
  unfold registry. cbn [map first_holder].
  repeat match goal with
         | |- context [if CheckCollisionPointRec ?p ?r then _ else _] =>
             destruct (CheckCollisionPointRec p r)
         end; cbn [option_map]; intros E; inversion E; subst; cbn; auto.
Qed.

Lemma filter_filter {A} (f g : A -> bool) (l : list A) :
  (forall a, f a = true -> g a = true) ->
  filter f (filter g l) = filter f l.
Proof.
  intros H. induction l as [ | a l IH]; [reflexivity | ].
  cbn [filter]. destruct (g a) eqn:Ga; cbn [filter].
  - rewrite IH. reflexivity.
  - destruct (f a) eqn:Fa; [ | exact IH]. rewrite (H a Fa) in Ga. discriminate.
Qed.

(** C2.  A pass that installs a mouse remap sets the offset back to (0, 0)
    and the scale back to (1, 1) after the gizmo call, before the pass
    ends; a pass that installs none touches neither.  So in every frame of
    [main] each of the passes starts with no remap in force, and so does
    whatever follows the last of them. *)
Theorem C2_remap_is_paired :
  (forall (i : Z) (s : State G),
      let s' := exec (viewport_pass i) s in
      let v := load (view_at i) s in
      if active i s
      then remap_identity s'
           /\ filter is_remap (emitted (viewport_pass i) s)
              = [ call_SetMouseOffset (- F32.to_int (rec_x (area v)))
                                      (- F32.to_int (rec_y (area v)));
                  call_SetMouseScale
                    (F32.div (F32.of_int (tex_width (rt_texture (rt v)))) (rec_width (area v)))
                    (F32.div (F32.of_int (tex_height (rt_texture (rt v)))) (rec_height (area v)));
                  call_SetMouseOffset 0 0;
                  call_SetMouseScale F32.one F32.one ]
      else mouse_offset s' = mouse_offset s /\ mouse_scale s' = mouse_scale s
           /\ filter is_remap (emitted (viewport_pass i) s) = [])
  /\ forall (before : list FrameInput) (input : FrameInput),
      (forall k : nat,
          remap_identity (at_pass image_size before input k)
          /\ at_pass image_size before input (S k)
             = exec (viewport_pass (Z.of_nat k)) (at_pass image_size before input k))
      /\ exec frame (at_frame image_size before input)
         = exec EndDrawing (at_pass image_size before input 4).
Proof.
  split; [ exact pass_remap | ].
  intros before input. split.
  - intros k. split.
    + unfold at_pass. apply passes_keep_identity.
      destruct (at_frame_running image_size before input) as [[_ R] _].
      revert R. generalize (at_frame image_size before input). intros s R.
      destruct s. unfold remap_identity in *. cbn in *. exact R.
    + unfold at_pass. rewrite for_from_snoc. reflexivity.
  - unfold at_pass, frame, for_upto. rewrite !exec_bind. reflexivity.
Qed.

(** C7.  In a frame of [main] in which no viewport rectangle holds the mouse
    position, no mouse remap is installed, the gizmo is not drawn, and the
    crate transform at the end of the frame is the one at its start; the
    frame is an ordinary one: all four viewports are drawn with that
    transform and composited. *)
Theorem C7_pointer_outside_every_viewport (before : list FrameInput) (input : FrameInput) :
  let s := at_frame image_size before input in
  holders (pointer s) (map area (view s)) = 0%nat ->
  filter (fun c => is_remap c || is_gizmo_draw c) (emitted frame s) = []
  /\ crateTransform (exec frame s) = crateTransform s
  /\ drawn_matrices (emitted frame s) = repeat (GizmoToMatrix (crateTransform s)) 4
  /\ List.length (filter is_composite (emitted frame s)) = 4%nat.
Proof.
  cbv zeta.
  destruct (at_frame_running image_size before input) as [Hrun _].
  revert Hrun. generalize (at_frame image_size before input). intros s Hrun H.
  pose proof (running_frame_summary s Hrun) as F. cbv zeta in F.
  destruct Hrun as [V R]. rewrite V in H.
  rewrite (holders_none _ _ H) in F.
  destruct F as (F1 & F2 & F3 & F4 & F5).
  rewrite F2, F3, F4, F5. repeat split; reflexivity.
Qed.

(** C10.  A pass draws the model with the world matrix of the transform as
    the pass finds it, and draws the gizmo, if at all, after the model.  So
    in a frame of [main] in which viewport i is under the pointer, viewports
    0 to i are drawn with the transform the frame began with, and viewports
    i + 1 to 3 with the transform the gizmo call left, which is the
    transform at the end of the frame. *)
Theorem C10_mutation_splits_the_frame :
  (forall (i : Z) (s : State G),
      let v := load (view_at i) s in
      emitted (viewport_pass i) s
      = scene_calls v (with_transform (GizmoToMatrix (crateTransform s)) (crateModel s))
        ++ (if active i s then gizmo_calls v (remapped v s) (crateTransform s) else [])
        ++ composite_calls v)
  /\ forall (before : list FrameInput) (input : FrameInput),
      let s := at_frame image_size before input in
      let t := crateTransform s in
      let t' := crateTransform (exec frame s) in
      match first_holder (pointer s) (view s) with
      | Some i =>
          drawn_matrices (emitted frame s)
          = repeat (GizmoToMatrix t) (S i) ++ repeat (GizmoToMatrix t') (3 - i)
          /\ t' = snd (gizmo_result (nth i (view s) garbage_viewport)
                                    (set_mode3d (Some (camera (nth i (view s) garbage_viewport))) s))
      | None => drawn_matrices (emitted frame s) = repeat (GizmoToMatrix t) 4 /\ t' = t
      end.
Proof.
  split; [ exact pass_trace | ].
  intros before input. cbv zeta.
  destruct (at_frame_running image_size before input) as [Hrun _].
  revert Hrun. generalize (at_frame image_size before input). intros s Hrun.
  pose proof (running_frame_summary s Hrun) as F. cbv zeta in F.
  destruct Hrun as [V R]. rewrite V.
  destruct F as (F1 & F2 & F3 & F4 & F5).
  rewrite F3, F4.
  destruct (first_holder (pointer s) registry); split; reflexivity.
Qed.

End Claims.

Section MoreClaims.

Context {G : Type} {gz : RayGizmo G}.
Variable image_size : string -> Z * Z.

Lemma main_returns (script : list FrameInput) (s : State G) :
  fst (main image_size script s) = 0.
Proof.
  unfold main, bind.
  destruct (initialization image_size s) as [? s1].
  destruct (main_loop script s1) as [? s2].
  destruct (cleanup s2). reflexivity.
Qed.

Lemma exec_main (script : list FrameInput) (s : State G) :
  exec (main image_size script) s
  = exec cleanup (exec (main_loop script) (exec (initialization image_size) s)).
Proof.
  unfold main, exec, bind.
  destruct (initialization image_size s) as [? s1]. cbn [snd].
  destruct (main_loop script s1) as [? s2]. cbn [snd].
  destruct (cleanup s2). reflexivity.
Qed.

Lemma cleanup_calls (s : State G) :
  view s = registry ->
  calls (exec cleanup s)
  = calls s ++ [ call_UnloadRenderTexture (rt (registry_entry 0));
                 call_UnloadRenderTexture (rt (registry_entry 1));
                 call_UnloadRenderTexture (rt (registry_entry 2));
                 call_UnloadRenderTexture (rt (registry_entry 3));
                 call_UnloadTexture (crateTexture s);
                 call_UnloadModel (crateModel s);
                 call_CloseWindow ].
Proof.
  destruct s. cbn [view calls crateTexture crateModel]. intros ->.
  unfold cleanup, for_upto. change (Z.to_nat VIEWPORT_COUNT) with 4%nat.
  cbn [for_from]. unfold registry. cbn [map].
  cbv [bind read record ret exec fst snd load store UnloadRenderTexture UnloadTexture
       UnloadModel CloseWindow crateModel_var crateTexture_var view_at calls crateTexture
       crateModel view set_calls nth Z.to_nat Pos.to_nat Pos.iter_op Init.Nat.add Z.add
       Pos.add Pos.succ].
  rewrite <- !app_assoc. reflexivity.
Qed.

(** C9.  Each render target [main] allocates has pixel size (int)HALF_W by
    (int)HALF_H, that is 480 by 270, the width and height of its viewport's
    rectangle; so the mouse scale a viewport installs is exactly
    (1.0, 1.0).  The origin of each rectangle is an integer that the cast to
    int keeps, so the offset installed is exactly the negated origin.  In a
    frame of [main] the remap calls are therefore, for viewport i under the
    pointer, the offset (-480 (i mod 2), -270 (i / 2)) with scale (1, 1),
    then the offset (0, 0) with scale (1, 1). *)
Theorem C9_remap_is_a_translation :
  Forall (fun v : Viewport =>
            tex_width (rt_texture (rt v)) = F32.to_int HALF_W
            /\ tex_height (rt_texture (rt v)) = F32.to_int HALF_H
            /\ F32.of_int (tex_width (rt_texture (rt v))) = rec_width (area v)
            /\ F32.of_int (tex_height (rt_texture (rt v))) = rec_height (area v)
            /\ F32.div (F32.of_int (tex_width (rt_texture (rt v)))) (rec_width (area v))
               = F32.one
            /\ F32.div (F32.of_int (tex_height (rt_texture (rt v)))) (rec_height (area v))
               = F32.one
            /\ F32.of_int (F32.to_int (rec_x (area v))) = rec_x (area v)
            /\ F32.of_int (F32.to_int (rec_y (area v))) = rec_y (area v))
         (view (exec (initialization image_size) process_start))
  /\ forall (before : list FrameInput) (input : FrameInput),
      let s := at_frame image_size before input in
      filter is_remap (emitted frame s)
      = match first_holder (pointer s) (view s) with
        | Some i => [ call_SetMouseOffset (- (480 * (Z.of_nat i mod 2)))
                                          (- (270 * (Z.of_nat i / 2)));
                      call_SetMouseScale F32.one F32.one;
                      call_SetMouseOffset 0 0;
                      call_SetMouseScale F32.one F32.one ]
        | None => []
        end.
Proof.
  split.
  - assert (V : view (exec (initialization image_size) process_start) = registry)
      by (vm_compute; reflexivity).
    rewrite V. unfold registry. cbn [map].
    repeat constructor; vm_compute; reflexivity.
  - intros before input. cbv zeta.
    destruct (at_frame_running image_size before input) as [Hrun _].
    revert Hrun. generalize (at_frame image_size before input). intros s Hrun.
    pose proof (running_frame_summary s Hrun) as F. cbv zeta in F.
    destruct Hrun as [V R]. rewrite V.
    destruct F as (_ & F2 & _).
    rewrite <- (filter_filter is_remap (fun c => is_remap c || is_gizmo_draw c)
                  (emitted frame s)) by (intros a ->; reflexivity).
    rewrite F2.
    destruct (first_holder (pointer s) registry) as [i | ] eqn:Hit; [ | reflexivity].
    apply first_holder_registry in Hit.
    cbn [gizmo_calls filter is_remap].
    destruct Hit as [<- | [<- | [<- | [<- | []]]]]; vm_compute; reflexivity.
Qed.

End MoreClaims.

(** ** Remapped coordinates *)

Lemma add_opp_sub (x y : float) : F32.add x (F32.opp y) = F32.sub x y.
Proof.
  unfold F32.add, F32.sub, F32.opp, SFadd, SFsub, SFopp.
  destruct x as [[ | ] | [ | ] | | [ | ] mx ex], y as [[ | ] | [ | ] | | [ | ] my ey];
    reflexivity.
Qed.

(** Adding the negated origin gives the value of subtracting the origin. *)
Lemma remap_axis (x : float) (n : Z) :
  In n [0; 270; 480] ->
  F32.same_value (F32.mul (F32.add x (F32.of_int (- n))) F32.one)
                 (F32.mul (F32.sub x (F32.of_int n)) F32.one).
Proof.
  intros [<- | [<- | [<- | []]]].
  - destruct x as [[ | ] | [ | ] | | [ | ] mx ex];
      try (left; reflexivity).
    right. exists false, true. split; reflexivity.
  - change (F32.of_int (Z.opp 270)) with (F32.opp (F32.of_int 270)).
    rewrite add_opp_sub. left; reflexivity.
  - change (F32.of_int (Z.opp 480)) with (F32.opp (F32.of_int 480)).
    rewrite add_opp_sub. left; reflexivity.
Qed.

Lemma remapped_local {G : Type} (v : Viewport) (s : State G) (n m : Z) :
  rec_x (area v) = F32.of_int n -> rec_y (area v) = F32.of_int m ->
  In n [0; 270; 480] -> In m [0; 270; 480] ->
  F32.div (F32.of_int (tex_width (rt_texture (rt v)))) (rec_width (area v)) = F32.one ->
  F32.div (F32.of_int (tex_height (rt_texture (rt v)))) (rec_height (area v)) = F32.one ->
  F32.same_value (v2x (remapped v s)) (v2x (local_of (mouse_current s) v))
  /\ F32.same_value (v2y (remapped v s)) (v2y (local_of (mouse_current s) v)).
Proof.
  intros X Y Hn Hm W H. unfold remapped, local_of. cbn [v2x v2y].
  rewrite X, Y, W, H.
  assert (T : forall k, In k [0; 270; 480] -> F32.to_int (F32.of_int k) = k).
  { intros k [<- | [<- | [<- | []]]]; reflexivity. }
  rewrite (T n Hn), (T m Hm).
  split; apply remap_axis; assumption.
Qed.

Lemma shown_at_flipped (source : Rectangle) (position : Vector2) (w h px py x y : Z) :
  F32.to_int (rec_x source) = 0 -> F32.to_int (rec_y source) = 0 ->
  F32.to_int (rec_width source) = w -> F32.to_int (rec_height source) = - h ->
  0 < w -> 0 < h ->
  F32.to_int (v2x position) = px -> F32.to_int (v2y position) = py ->
  shown_at source position x y
  = if (0 <=? x) && (x <? w) && (0 <=? y) && (y <? h)
    then Some (px + x, py + (h - 1 - y))
    else None.
Proof.
  intros X Y W H Hw Hh Px Py. unfold shown_at.
  rewrite X, Y, W, H, Px, Py. cbn [Z.add].
  rewrite Z.abs_opp, (Z.abs_eq w), (Z.abs_eq h) by lia.
  destruct ((0 <=? x) && (x <? w) && (0 <=? y) && (y <? h)); [ | reflexivity].
  destruct (Z.ltb_spec w 0), (Z.ltb_spec (- h) 0); try lia.
  rewrite !Z.sub_0_r. reflexivity.
Qed.

Section RemapClaims.

Context {G : Type} {gz : RayGizmo G}.
Variable image_size : string -> Z * Z.

(** C3.  For the viewport under the pointer the program installs, before
    the gizmo is drawn, the mouse offset minus the rectangle origin (an
    integer the cast keeps) and the mouse scale render-target size over
    rectangle size; what the gizmo then reads through [GetMousePosition] has
    the value of (window - rect.origin) * (targetSize / rectSize), the two
    differing at most in the sign of a zero.  With the pointer at window
    coordinate (500, 300) the viewport is index 3, rectangle
    {480,270,480,270}, and the gizmo reads (20, 30). *)
Theorem C3_remap_to_viewport_local :
  (forall (before : list FrameInput) (input : FrameInput),
      let s := at_frame image_size before input in
      filter (fun c => is_remap c || is_gizmo_draw c) (emitted frame s)
      = match first_holder (pointer s) (view s) with
        | Some i =>
            let v := nth i (view s) garbage_viewport in
            [ call_SetMouseOffset (- F32.to_int (rec_x (area v)))
                                  (- F32.to_int (rec_y (area v)));
              call_SetMouseScale
                (F32.div (F32.of_int (tex_width (rt_texture (rt v)))) (rec_width (area v)))
                (F32.div (F32.of_int (tex_height (rt_texture (rt v)))) (rec_height (area v)));
              call_DrawGizmo3D GIZMO_TRANSLATE (remapped v s) (crateTransform s);
              call_SetMouseOffset 0 0;
              call_SetMouseScale F32.one F32.one ]
        | None => []
        end
      /\ Forall (fun v : Viewport =>
                   F32.of_int (F32.to_int (rec_x (area v))) = rec_x (area v)
                   /\ F32.of_int (F32.to_int (rec_y (area v))) = rec_y (area v)
                   /\ F32.same_value (v2x (remapped v s)) (v2x (local_of (fi_mouse input) v))
                   /\ F32.same_value (v2y (remapped v s)) (v2y (local_of (fi_mouse input) v)))
                (view s))
  /\ forall (before : list FrameInput) (left_down : bool),
      let s := at_frame image_size before (input_at 500 300 left_down) in
      let v := nth 3 (view s) garbage_viewport in
      pointer s = mkVector2 (F32.of_int 500) (F32.of_int 300)
      /\ first_holder (pointer s) (view s) = Some 3%nat
      /\ area v = rect 480 270 480 270
      /\ remapped v s = mkVector2 (F32.of_int 20) (F32.of_int 30)
      /\ local_of (mkVector2 (F32.of_int 500) (F32.of_int 300)) v
         = mkVector2 (F32.of_int 20) (F32.of_int 30).
Proof.
  split.
  - intros before input. cbv zeta.
    destruct (at_frame_running image_size before input) as [Hrun Hm].
    revert Hrun Hm. generalize (at_frame image_size before input). intros s Hrun Hm.
    pose proof (running_frame_summary s Hrun) as F. cbv zeta in F.
    destruct Hrun as [V R]. rewrite V.
    destruct F as (_ & F2 & _).
    split; [ exact F2 | ].
    rewrite <- Hm. unfold registry. cbn [map].
    pose proof (fun v n m => remapped_local v s n m) as L.
    repeat apply Forall_cons; try apply Forall_nil;
      (split; [ vm_compute; reflexivity | ]);
      (split; [ vm_compute; reflexivity | ]).
    + apply (L _ 0 0); try (vm_compute; reflexivity); cbn [In]; auto.
    + apply (L _ 480 0); try (vm_compute; reflexivity); cbn [In]; auto.
    + apply (L _ 0 270); try (vm_compute; reflexivity); cbn [In]; auto.
    + apply (L _ 480 270); try (vm_compute; reflexivity); cbn [In]; auto.
  - intros before left_down. cbv zeta.
    destruct (at_frame_running image_size before (input_at 500 300 left_down)) as [Hrun Hm].
    revert Hrun Hm. generalize (at_frame image_size before (input_at 500 300 left_down)).
    intros s Hrun Hm.
    rewrite (pointer_running s Hrun).
    destruct Hrun as [V R]. rewrite V.
    unfold remapped. rewrite Hm.
    repeat split; vm_compute; reflexivity.
Qed.

End RemapClaims.

Section CompositeClaims.

Context {G : Type} {gz : RayGizmo G}.
Variable image_size : string -> Z * Z.

(** C5.  In every frame of [main] the compositing draw of viewport i takes
    the whole render texture with the source rectangle
    {0, 0, width, -height}, that is {0, 0, 480, -270}, and puts it at
    (rect_i.x, rect_i.y).  That draw shows the texel at column x and row y
    of the texture, for 0 <= x < 480 and 0 <= y < 270, at the window pixel
    (rect_i.x + x, rect_i.y + (270 - 1 - y)), and shows no other texel. *)
Theorem C5_composite_is_flipped (before : list FrameInput) (input : FrameInput) :
  let s := at_frame image_size before input in
  let draws := filter is_composite (emitted frame s) in
  draws
  = map (fun v : Viewport =>
           call_DrawTextureRec
             (rt_texture (rt v))
             (mkRectangle (F32.of_int 0) (F32.of_int 0)
                          (F32.of_int (tex_width (rt_texture (rt v))))
                          (F32.opp (F32.of_int (tex_height (rt_texture (rt v))))))
             (mkVector2 (rec_x (area v)) (rec_y (area v)))
             WHITE)
        (view s)
  /\ Forall (fun v : Viewport =>
               tex_width (rt_texture (rt v)) = 480 /\ tex_height (rt_texture (rt v)) = 270)
            (view s)
  /\ Forall (fun i : nat =>
               F32.of_int (480 * (Z.of_nat i mod 2))
               = rec_x (area (nth i (view s) garbage_viewport))
               /\ F32.of_int (270 * (Z.of_nat i / 2))
                  = rec_y (area (nth i (view s) garbage_viewport))
               /\ forall x y : Z,
                    shows (nth i draws call_EndDrawing) x y
                    = if (0 <=? x) && (x <? 480) && (0 <=? y) && (y <? 270)
                      then Some (480 * (Z.of_nat i mod 2) + x,
                                 270 * (Z.of_nat i / 2) + (270 - 1 - y))
                      else None)
            [0; 1; 2; 3]%nat.
Proof.
  cbv zeta.
  destruct (at_frame_running image_size before input) as [Hrun _].
  revert Hrun. generalize (at_frame image_size before input). intros s Hrun.
  pose proof (running_frame_summary s Hrun) as F. cbv zeta in F.
  destruct Hrun as [V R]. rewrite V.
  destruct F as (_ & _ & _ & _ & F5). rewrite F5.
  split; [ reflexivity | ].
  split; [ repeat constructor | ].
  unfold registry. cbn [map flat_map composite_calls filter is_composite app].
  repeat apply Forall_cons; try apply Forall_nil;
    (split; [ vm_compute; reflexivity | ]);
    (split; [ vm_compute; reflexivity | ]);
    intros x y; cbn [nth shows];
    apply shown_at_flipped; try reflexivity; lia.
Qed.

End CompositeClaims.

(** C6.  The world matrix the spec's [GizmoToMatrix] composes from the
    transform of the spec's [GizmoIdentity] is the identity matrix, whatever
    the order of composition the library has.  With such a library every
    pass that finds the identity transform draws the model with the
    identity matrix, whatever the viewport and its camera; and the transform
    [main] starts its first frame with is that of [GizmoIdentity]. *)
Theorem C6_identity_transform_identity_matrix :
  (forall order : GizmoSpec.Order,
      GizmoSpec.GizmoToMatrix order GizmoSpec.GizmoIdentity = MatrixIdentity)
  /\ (forall (order : GizmoSpec.Order) (G : Type) (start : G) (set_size : float -> G -> G)
             (draw : GizmoFlags -> GizmoInput -> G -> Transform -> G * Transform)
             (s : State G) (i : Z),
         drawn_matrices
           (emitted (viewport_pass (gz := GizmoSpec.library order start set_size draw) i)
                    (set_crateTransform GizmoSpec.GizmoIdentity s))
         = [MatrixIdentity])
  /\ (forall (G : Type) (gz : RayGizmo G) (image_size : string -> Z * Z) (input : FrameInput),
         crateTransform (at_frame image_size [] input) = GizmoIdentity).
Proof.
  assert (I : forall order : GizmoSpec.Order,
             GizmoSpec.GizmoToMatrix order GizmoSpec.GizmoIdentity = MatrixIdentity).
  { intros []; vm_compute; reflexivity. }
  split; [ exact I | ]. split.
  - intros order G start set_size draw s i.
    pose proof (pass_trace (gz := GizmoSpec.library order start set_size draw) i
                  (set_crateTransform GizmoSpec.GizmoIdentity s)) as P.
    cbv zeta in P. rewrite P. clear P.
    unfold drawn_matrices. rewrite !flat_map_app.
    replace (crateTransform (set_crateTransform GizmoSpec.GizmoIdentity s))
      with GizmoSpec.GizmoIdentity by (destruct s; reflexivity).
    change (@GizmoToMatrix G (GizmoSpec.library order start set_size draw)
              GizmoSpec.GizmoIdentity)
      with (GizmoSpec.GizmoToMatrix order GizmoSpec.GizmoIdentity).
    rewrite I.
    cbn [scene_calls flat_map drawn_transform model_transform with_transform app].
    destruct (active _ _); reflexivity.
  - intros G gz image_size input.
    destruct (initialization_outcome image_size) as (_ & T & _).
    cbv zeta in T. revert T. unfold at_frame.
    generalize (exec (initialization image_size) process_start).
    intros s T. destruct s. exact T.
Qed.

(** ** Runs on concrete inputs *)

(** The right and bottom edge of a rectangle are outside it: the pointer at
    (480, 270) is in the last quadrant only, the pointer at (960, 100) in
    none. *)
Example pointer_on_the_cut :
  first_holder (mkVector2 (F32.of_int 480) (F32.of_int 270)) registry = Some 3%nat
  /\ holders (mkVector2 (F32.of_int 480) (F32.of_int 270)) quadrants = 1%nat
  /\ holders (mkVector2 (F32.of_int 960) (F32.of_int 100)) quadrants = 0%nat.
Proof. repeat split; vm_compute; reflexivity. Qed.

(** A run of one frame with the dragging gizmo, the button held and the
    pointer at (100, 100), in the first quadrant: the first viewport is
    drawn with the identity matrix, the gizmo then moves the crate to what
    it reads, (100, 100), and the other three viewports are drawn with the
    translation. *)
Example drag_in_first_quadrant :
  let s := at_frame (gz := GizmoSpec.drag_library) disk [] (input_at 100 100 true) in
  let moved := GizmoSpec.MatrixTranslate (F32.of_int 100) (F32.of_int 100) F32.zero in
  drawn_matrices (emitted (frame (gz := GizmoSpec.drag_library)) s)
  = [MatrixIdentity; moved; moved; moved]
  /\ translation (crateTransform (exec (frame (gz := GizmoSpec.drag_library)) s))
     = mkVector3 (F32.of_int 100) (F32.of_int 100) F32.zero
  /\ List.length (calls (exec (main (gz := GizmoSpec.drag_library) disk
                                   [input_at 100 100 true])
                             (process_start (gz := GizmoSpec.drag_library))))
     = 55%nat.
Proof. repeat split; vm_compute; reflexivity. Qed.

(** The frame of C7 occurs: with the pointer at (2000, 2000), outside the
    window, the first frame of a run draws no gizmo. *)
Lemma C7_witness :
  let s := at_frame (gz := GizmoSpec.drag_library) disk [] (input_at 2000 2000 true) in
  holders (pointer s) (map area (view s)) = 0%nat
  /\ filter (fun c => is_remap c || is_gizmo_draw c)
            (emitted (frame (gz := GizmoSpec.drag_library)) s) = []
  /\ crateTransform (exec (frame (gz := GizmoSpec.drag_library)) s) = crateTransform s.
Proof.
  cbv zeta.
  assert (H : holders (pointer (at_frame (gz := GizmoSpec.drag_library) disk []
                                          (input_at 2000 2000 true)))
                      (map area (view (at_frame (gz := GizmoSpec.drag_library) disk []
                                                (input_at 2000 2000 true)))) = 0%nat)
    by (vm_compute; reflexivity).
  split; [ exact H | ].
  destruct (C7_pointer_outside_every_viewport (gz := GizmoSpec.drag_library) disk []
              (input_at 2000 2000 true) H) as (A & B & _).
  split; assumption.
Defined.

(** Outside the runs of [main]: the disjoint rectangles are what keeps the
    gizmo to one viewport.  On a view array whose first rectangle is
    enlarged to the whole window, with the pointer at (500, 300), which the
    first and the last rectangle hold, the loop draws the gizmo in both
    viewports. *)
Remark overlapping_viewports_both_draw :
  gizmo_targets None (emitted (frame (gz := GizmoSpec.drag_library)) overlapping)
  = [rt (registry_entry 0); rt (registry_entry 3)]
  /\ first_holder (pointer overlapping) (view overlapping) = Some 0%nat.
Proof. split; vm_compute; reflexivity. Qed.

(** * Further facts about runs of [main] *)

Section RunFacts.

Context {G : Type} {gz : RayGizmo G}.
Variable image_size : string -> Z * Z.

Lemma pass_calls (i : Z) (s : State G) :
  calls (exec (viewport_pass i) s) = calls s ++ emitted (viewport_pass i) s.
Proof.
  rewrite pass_trace. cbv zeta. rewrite exec_pass. unfold pass_outcome.
  destruct (active i s); reflexivity.
Qed.

Lemma pass_start_next (s : State G) (k : nat) :
  pass_start s (S k) = exec (viewport_pass (Z.of_nat k)) (pass_start s k).
Proof. unfold pass_start. rewrite for_from_snoc. reflexivity. Qed.

(** The calls of a frame: the two opening calls, the calls of the four
    passes, the closing call. *)
Lemma frame_trace (s : State G) :
  calls (exec frame s) = calls s ++ emitted frame s
  /\ emitted frame s
     = call_BeginDrawing :: call_ClearBackground (mkColor 0 0 25 255)
       :: emitted (viewport_pass 0) (pass_start s 0)
       ++ emitted (viewport_pass 1) (pass_start s 1)
       ++ emitted (viewport_pass 2) (pass_start s 2)
       ++ emitted (viewport_pass 3) (pass_start s 3)
       ++ [call_EndDrawing].
Proof.
  assert (E : calls (exec frame s)
              = calls s ++ call_BeginDrawing :: call_ClearBackground (mkColor 0 0 25 255)
                :: emitted (viewport_pass 0) (pass_start s 0)
                ++ emitted (viewport_pass 1) (pass_start s 1)
                ++ emitted (viewport_pass 2) (pass_start s 2)
                ++ emitted (viewport_pass 3) (pass_start s 3)
                ++ [call_EndDrawing]).
  { assert (F : exec frame s = exec EndDrawing (pass_start s 4)).
    { unfold pass_start, frame, for_upto. rewrite !exec_bind. reflexivity. }
    rewrite F.
    change (calls (exec EndDrawing (pass_start s 4)))
      with (calls (pass_start s 4) ++ [call_EndDrawing]).
    rewrite (pass_start_next s 3), pass_calls.
    rewrite (pass_start_next s 2), pass_calls.
    rewrite (pass_start_next s 1), pass_calls.
    rewrite (pass_start_next s 0), pass_calls.
    change (calls (pass_start s 0))
      with ((calls s ++ [call_BeginDrawing])
            ++ [call_ClearBackground (mkColor 0 0 25 255)]).
    change (Z.of_nat 0) with 0. change (Z.of_nat 1) with 1.
    change (Z.of_nat 2) with 2. change (Z.of_nat 3) with 3.
    rewrite <- !app_assoc. reflexivity. }
  split.
  - rewrite E. f_equal. symmetry. apply emitted_exactly. exact E.
  - apply emitted_exactly. exact E.
Qed.

Lemma poll_outcome (input : FrameInput) (s : State G) :
  let s' := exec (poll input) s in
  mouse_current s' = fi_mouse input
  /\ mouse_left_down s' = fi_left_down input
  /\ calls s' = calls s
  /\ crateTransform s' = crateTransform s
  /\ crateModel s' = crateModel s
  /\ crateTexture s' = crateTexture s
  /\ gizmo s' = gizmo s
  /\ gl_ids s' = gl_ids s
  /\ (running s -> running s').
Proof.
  destruct s. unfold running, remap_identity. cbn. repeat split; tauto.
Qed.

(** The calls of the loop are those of its frames, one after the other. *)
Lemma main_loop_calls (script : list FrameInput) (s : State G) :
  calls (exec (main_loop script) s) = calls s ++ List.concat (frame_traces script s).
Proof.
  revert s. induction script as [ | input rest IH]; intros s.
  - cbn. rewrite app_nil_r. reflexivity.
  - cbn [main_loop frame_traces List.concat]. rewrite !exec_bind, IH.
    rewrite (proj1 (frame_trace _)).
    destruct (poll_outcome input s) as (_ & _ & C & _). cbv zeta in C.
    rewrite C, app_assoc. reflexivity.
Qed.

(** The loop keeps [main] running, and each of its frames starts in a
    running state that holds the input of the frame. *)
Lemma frames_running (script : list FrameInput) (s : State G) :
  running s ->
  Forall2 (fun input tr =>
             exists s', running s' /\ mouse_current s' = fi_mouse input
                        /\ tr = emitted frame s')
          script (frame_traces script s).
Proof.
  revert s. induction script as [ | input rest IH]; intros s Hs; cbn [frame_traces].
  - constructor.
  - destruct (poll_outcome input s) as (M & _ & _ & _ & _ & _ & _ & _ & R).
    cbv zeta in M, R. specialize (R Hs).
    constructor.
    + exists (exec (poll input) s). auto.
    + apply IH. apply (frame_running _ R).
Qed.

(** The calls of a run: those before the loop, those of the frames, those
    after the loop. *)
Lemma main_calls (script : list FrameInput) :
  exists model,
    calls (exec (main image_size script) process_start)
    = setup_calls image_size
      ++ List.concat (frame_traces script (exec (initialization image_size) process_start))
      ++ teardown_calls image_size model.
Proof.
  rewrite exec_main.
  destruct (initialization_outcome image_size) as (R0 & _ & _ & T0).
  cbv zeta in R0, T0.
  destruct (main_loop_running script _ R0) as (R1 & T1 & _).
  rewrite (cleanup_calls _ (proj1 R1)), main_loop_calls, T1, T0.
  eexists. unfold setup_calls, teardown_calls. rewrite <- app_assoc. reflexivity.
Qed.

Lemma nesting_app (ph : Phase) (l1 l2 : list Call) :
  nesting ph (l1 ++ l2)
  = match nesting ph l1 with
    | Some ph' => nesting ph' l2
    | None => None
    end.
Proof.
  revert ph. induction l1 as [ | c l1 IH]; intros ph; [reflexivity | ].
  cbn [app nesting]. destruct (nest ph c); [apply IH | reflexivity].
Qed.

Lemma pass_nesting (i : Z) (s : State G) :
  nesting Drawing (emitted (viewport_pass i) s) = Some Drawing.
Proof. rewrite pass_trace. cbv zeta. destruct (active i s); reflexivity. Qed.

Lemma frame_nesting (s : State G) : nesting Idle (emitted frame s) = Some Idle.
Proof.
  rewrite (proj2 (frame_trace s)). cbn [nesting nest].
  repeat (rewrite nesting_app, pass_nesting; cbv beta iota). reflexivity.
Qed.

Lemma frames_nesting (script : list FrameInput) (s : State G) :
  nesting Idle (List.concat (frame_traces script s)) = Some Idle.
Proof.
  revert s. induction script as [ | input rest IH]; intros s; [reflexivity | ].
  cbn [frame_traces List.concat]. rewrite nesting_app, frame_nesting. apply IH.
Qed.

(** X1.  In every run of [main] the drawing calls are nested as raylib
    wants them: only [SetConfigFlags] precedes [InitWindow], which is the
    second call, and [CloseWindow] is the last call; assets and render
    targets are loaded and unloaded between frames only; every
    [BeginDrawing], [BeginTextureMode] and [BeginMode3D] is closed by its
    [End] in the opposite order; the model, the gizmo and the mouse remap
    calls occur inside a 3D mode inside a texture mode, and a render
    texture is drawn to the window outside any texture mode. *)
Theorem main_calls_are_nested (script : list FrameInput) :
  let tr := calls (exec (main image_size script) process_start) in
  nesting Unopened tr = Some Closed
  /\ (exists rest,
        tr = call_SetConfigFlags FLAG_MSAA_4X_HINT
             :: call_InitWindow 960 540 "raylib-gizmo | Example 03 - Gizmo With Render Targets"
             :: rest)
  /\ (exists body, tr = body ++ [call_CloseWindow]).
Proof.
  cbv zeta.
  destruct (main_calls script) as [model ->].
  split; [ | split ].
  - assert (S : nesting Unopened (setup_calls image_size) = Some Idle)
      by (vm_compute; reflexivity).
    rewrite nesting_app, S, nesting_app, frames_nesting. reflexivity.
  - assert (S : exists rest,
               setup_calls image_size
               = call_SetConfigFlags FLAG_MSAA_4X_HINT
                 :: call_InitWindow 960 540
                      "raylib-gizmo | Example 03 - Gizmo With Render Targets"
                 :: rest)
      by (eexists; vm_compute; reflexivity).
    destruct S as [rest ->]. eexists. cbn [app]. reflexivity.
  - unfold teardown_calls.
    match goal with
    | |- exists body, ?a ++ ?b ++ [?c1; ?c2; ?c3; ?c4; ?c5; ?c6; ?c7] = _ =>
        exists (a ++ b ++ [c1; c2; c3; c4; c5; c6])
    end.
    rewrite <- !app_assoc. reflexivity.
Qed.

End RunFacts.

Section FrameFacts.

Context {G : Type} {gz : RayGizmo G}.
Variable image_size : string -> Z * Z.

(** More of a frame that starts with no remap in force, four viewports and
    at most one of them under the pointer. *)
Lemma frame_layout (s : State G) (v0 v1 v2 v3 : Viewport) :
  view s = [v0; v1; v2; v3] ->
  remap_identity s ->
  (holders (pointer s) (map area (view s)) <= 1)%nat ->
  let hit := first_holder (pointer s) (view s) in
  let v := fun i => nth i (view s) garbage_viewport in
  List.length (emitted frame s) = match hit with Some _ => 36%nat | None => 31%nat end
  /\ stages (emitted frame s)
     = flat_map (fun w => [ rendered (rt w) (clearColor w) (camera w);
                            composited (rt_texture (rt w))
                                       (mkVector2 (rec_x (area w)) (rec_y (area w))) ])
                (view s)
  /\ gl_ids (exec frame s) = gl_ids s
  /\ model_albedo (crateModel (exec frame s)) = model_albedo (crateModel s)
  /\ Forall (draws_crate (model_albedo (crateModel s))) (emitted frame s)
  /\ gizmo (exec frame s)
     = match hit with
       | Some i => fst (gizmo_result (v i) (set_mode3d (Some (camera (v i))) s))
       | None => gizmo s
       end.
Proof.
  destruct s as [mc ld off sc m3 ids g tr tex model t vs].
  unfold remap_identity, holders.
  cbn [view mouse_offset mouse_scale crateTransform crateModel gl_ids gizmo].
  intros -> [-> ->] H.
  unfold pointer in H. run_in H. cbn [v2x v2y map filter] in H.
  unfold emitted. cbn [calls].
  remember (exec frame _) as F eqn:EF.
  rewrite frame_unfold in EF.
  match type of EF with context [exec (ClearBackground ?c) (exec BeginDrawing ?s)] =>
    let x := ran (exec (ClearBackground c) (exec BeginDrawing s)) in
    change (exec (ClearBackground c) (exec BeginDrawing s)) with x in EF
  end.
  pass_step EF H; pass_step EF H; pass_step EF H; pass_step EF H;
    match type of EF with context [exec EndDrawing ?s] =>
      let x := ran (exec EndDrawing s) in change (exec EndDrawing s) with x in EF
    end;
    subst F; clear H;
    unfold first_holder, pointer; run; cbn [v2x v2y nth];
    repeat match goal with B : CheckCollisionPointRec _ _ = _ |- _ => rewrite B; clear B end;
    cbn [calls crateModel gl_ids gizmo option_map];
    rewrite <- !app_assoc, skipn_app, skipn_all, Nat.sub_diag;
    cbn [skipn app scene_calls gizmo_calls composite_calls];
    repeat split; try reflexivity;
    repeat (apply Forall_cons; [ cbn [draws_crate]; auto | ]); apply Forall_nil.
Qed.

Lemma first_holder_none (p : Vector2) (vs : list Viewport) :
  first_holder p vs = None -> holders p (map area vs) = 0%nat.
Proof.
  unfold holders. induction vs as [ | v vs IH]; [reflexivity | ].
  cbn [map filter first_holder].
  destruct (CheckCollisionPointRec p (area v)); [discriminate | ].
  destruct (first_holder p vs); [discriminate | ]. intros _. apply IH. reflexivity.
Qed.

(** Some viewport of [main] holds a point exactly if the window does. *)
Lemma hit_in_window (p : Vector2) :
  CheckCollisionPointRec p window
  = match first_holder p registry with Some _ => true | None => false end.
Proof.
  pose proof (quadrants_tile p) as T. rewrite <- registry_areas in T.
  destruct (first_holder p registry) eqn:Hit.
  - destruct (CheckCollisionPointRec p window); [reflexivity | ].
    rewrite (holders_none _ _ T) in Hit. discriminate.
  - rewrite (first_holder_none _ _ Hit) in T.
    destruct (CheckCollisionPointRec p window); [discriminate | reflexivity].
Qed.

Lemma running_frame_layout (s : State G) :
  running s ->
  List.length (emitted frame s)
    = (if CheckCollisionPointRec (pointer s) window then 36%nat else 31%nat)
  /\ stages (emitted frame s)
     = flat_map (fun w => [ rendered (rt w) (clearColor w) (camera w);
                            composited (rt_texture (rt w))
                                       (mkVector2 (rec_x (area w)) (rec_y (area w))) ])
                registry
  /\ gl_ids (exec frame s) = gl_ids s
  /\ model_albedo (crateModel (exec frame s)) = model_albedo (crateModel s)
  /\ Forall (draws_crate (model_albedo (crateModel s))) (emitted frame s).
Proof.
  intros [V R].
  assert (H : (holders (pointer s) (map area (view s)) <= 1)%nat).
  { rewrite V, registry_areas. apply quadrants_one_holder. }
  pose proof (frame_layout s (registry_entry 0) (registry_entry 1) (registry_entry 2)
                (registry_entry 3) V R H) as F.
  cbv zeta in F. rewrite V in F.
  destruct F as (F1 & F2 & F3 & F4 & F5 & _).
  rewrite hit_in_window.
  destruct (first_holder (pointer s) registry); auto.
Qed.

Lemma running_input (s : State G) (input : FrameInput) :
  running s -> mouse_current s = fi_mouse input ->
  CheckCollisionPointRec (pointer s) window = in_window input.
Proof. intros R M. rewrite (pointer_running s R), M. reflexivity. Qed.

End FrameFacts.

Lemma concat_count {A B : Type} (f : B -> bool) (g : A -> bool) (R : A -> list B -> Prop)
    (l : list A) (ls : list (list B)) :
  Forall2 R l ls ->
  (forall a b, R a b -> List.length (filter f b) = if g a then 1%nat else 0%nat) ->
  List.length (filter f (List.concat ls)) = List.length (filter g l).
Proof.
  intros H K. induction H as [ | a b l ls Hab _ IH]; [reflexivity | ].
  cbn [List.concat filter]. rewrite filter_app, length_app, IH, (K a b Hab).
  destruct (g a); reflexivity.
Qed.

Lemma concat_filter_nil {A B : Type} (f : B -> bool) (R : A -> list B -> Prop)
    (l : list A) (ls : list (list B)) :
  Forall2 R l ls ->
  (forall a b, R a b -> filter f b = []) ->
  filter f (List.concat ls) = [].
Proof.
  intros H K. induction H as [ | a b l ls Hab _ IH]; [reflexivity | ].
  cbn [List.concat]. rewrite filter_app, IH, (K a b Hab). reflexivity.
Qed.

Lemma concat_count_each {A B : Type} (f : list B -> nat) (k : nat)
    (R : A -> list B -> Prop) (l : list A) (ls : list (list B)) :
  f [] = 0%nat ->
  (forall b1 b2, f (b1 ++ b2) = (f b1 + f b2)%nat) ->
  Forall2 R l ls ->
  (forall a b, R a b -> f b = k) ->
  f (List.concat ls) = (k * List.length l)%nat.
Proof.
  intros F0 Fapp H K. induction H as [ | a b l ls Hab _ IH].
  - cbn. rewrite F0. lia.
  - cbn [List.concat List.length]. rewrite Fapp, IH, (K a b Hab). lia.
Qed.

Section RunClaims.

Context {G : Type} {gz : RayGizmo G}.
Variable image_size : string -> Z * Z.

(** X2.  Every frame of [main] renders and composites all four viewports,
    whatever the pointer: viewport 0 is rendered to its target, cleared
    with its colour under its camera, and drawn to the window at its
    rectangle's origin before viewport 1 is rendered, and so on in the
    order of the array.  The colours are BACK_COLORS, the cameras are what
    [CreateCamera] makes of CAM_POSITIONS and the world origin, and the
    four eye positions are distinct. *)
Theorem every_frame_draws_all_viewports (before : list FrameInput) (input : FrameInput) :
  let s := at_frame image_size before input in
  stages (emitted frame s)
  = flat_map (fun v => [ rendered (rt v) (clearColor v) (camera v);
                         composited (rt_texture (rt v))
                                    (mkVector2 (rec_x (area v)) (rec_y (area v))) ])
             (view s)
  /\ map clearColor (view s) = BACK_COLORS
  /\ map camera (view s) = map (fun p => CreateCamera p Vector3Zero) CAM_POSITIONS
  /\ NoDup (map cam_position (map camera (view s))).
Proof.
  cbv zeta.
  destruct (at_frame_running image_size before input) as [Hrun _].
  revert Hrun. generalize (at_frame image_size before input). intros s Hrun.
  destruct (running_frame_layout s Hrun) as (_ & F2 & _).
  destruct Hrun as [V R]. rewrite V.
  split; [ exact F2 | ].
  split; [ vm_compute; reflexivity | ].
  split; [ vm_compute; reflexivity | ].
  assert (E : map cam_position (map camera registry) = CAM_POSITIONS)
    by (vm_compute; reflexivity).
  rewrite E. unfold CAM_POSITIONS.
  repeat (apply NoDup_cons;
          [ cbn [In]; intros K;
            repeat (destruct K as [K | K]; [ vm_compute in K; discriminate K | ]);
            exact K
          | ]).
  apply NoDup_nil.
Qed.

(** X3.  A frame of [main] draws the gizmo exactly if the pointer is in the
    960 x 540 window: once if it is, and otherwise not at all, with no
    remap call and the crate transform left as it was. *)
Theorem gizmo_exactly_inside_the_window (before : list FrameInput) (input : FrameInput) :
  let s := at_frame image_size before input in
  if in_window input
  then List.length (filter is_gizmo_draw (emitted frame s)) = 1%nat
       /\ List.length (filter is_remap (emitted frame s)) = 4%nat
  else filter (fun c => is_remap c || is_gizmo_draw c) (emitted frame s) = []
       /\ crateTransform (exec frame s) = crateTransform s.
Proof.
  cbv zeta.
  destruct (at_frame_running image_size before input) as [Hrun Hm].
  revert Hrun Hm. generalize (at_frame image_size before input). intros s Hrun Hm.
  rewrite <- (running_input s input Hrun Hm), hit_in_window.
  pose proof (running_frame_summary s Hrun) as F. cbv zeta in F.
  destruct F as (_ & F2 & F3 & _).
  rewrite <- (filter_filter is_gizmo_draw (fun c => is_remap c || is_gizmo_draw c)
                (emitted frame s))
    by (intros a ->; apply orb_true_r).
  rewrite <- (filter_filter is_remap (fun c => is_remap c || is_gizmo_draw c)
                (emitted frame s))
    by (intros a ->; reflexivity).
  rewrite F2, F3.
  destruct (first_holder (pointer s) registry); split; reflexivity.
Qed.

Lemma frame_gizmo_count (s : State G) (input : FrameInput) :
  running s -> mouse_current s = fi_mouse input ->
  List.length (filter is_gizmo_draw (emitted frame s))
  = if in_window input then 1%nat else 0%nat.
Proof.
  intros Hrun Hm.
  rewrite <- (running_input s input Hrun Hm), hit_in_window.
  pose proof (running_frame_summary s Hrun) as F. cbv zeta in F.
  destruct F as (_ & F2 & _).
  rewrite <- (filter_filter is_gizmo_draw (fun c => is_remap c || is_gizmo_draw c)
                (emitted frame s))
    by (intros a ->; apply orb_true_r).
  rewrite F2.
  destruct (first_holder (pointer s) registry); reflexivity.
Qed.

(** X4.  Over a whole run of [main] the gizmo is drawn as many times as
    there are frames with the pointer in the window. *)
Theorem gizmo_draws_of_a_run (script : list FrameInput) :
  List.length (filter is_gizmo_draw (calls (exec (main image_size script) process_start)))
  = List.length (filter in_window script).
Proof.
  destruct (main_calls image_size script) as [model ->].
  rewrite !filter_app, !length_app.
  assert (S : filter is_gizmo_draw (setup_calls image_size) = [])
    by (vm_compute; reflexivity).
  rewrite S. cbn [teardown_calls filter is_gizmo_draw List.length].
  rewrite Nat.add_0_r. cbn [Nat.add].
  destruct (initialization_outcome image_size) as (R0 & _).
  eapply concat_count; [ apply (frames_running script _ R0) | ].
  intros input tr (s' & R & M & ->). apply frame_gizmo_count; assumption.
Qed.

(** X5.  A run of [main] over n frames opens n frames and closes n frames,
    draws the model 4 n times and composites a render texture 4 n times,
    whatever the inputs; a run whose window is closed before the first
    frame does none of these. *)
Theorem calls_of_a_run (script : list FrameInput) :
  let tr := calls (exec (main image_size script) process_start) in
  List.length (filter is_frame_begin tr) = List.length script
  /\ List.length (filter is_frame_end tr) = List.length script
  /\ List.length (drawn_matrices tr) = (4 * List.length script)%nat
  /\ List.length (filter is_composite tr) = (4 * List.length script)%nat.
Proof.
  cbv zeta.
  destruct (main_calls image_size script) as [model ->].
  destruct (initialization_outcome image_size) as (R0 & _).
  pose proof (frames_running script _ R0) as F.
  assert (S : filter is_frame_begin (setup_calls image_size) = []
              /\ filter is_frame_end (setup_calls image_size) = []
              /\ drawn_matrices (setup_calls image_size) = []
              /\ filter is_composite (setup_calls image_size) = [])
    by (repeat split; vm_compute; reflexivity).
  destruct S as (S1 & S2 & S3 & S4).
  unfold drawn_matrices in *.
  rewrite !filter_app, !flat_map_app, !length_app, S1, S2, S3, S4.
  cbn [teardown_calls filter is_frame_begin is_frame_end is_composite flat_map
       drawn_transform app List.length].
  rewrite !Nat.add_0_r. cbn [Nat.add].
  split; [ | split; [ | split ] ].
  - rewrite (concat_count is_frame_begin (fun _ => true) _ _ _ F).
    + clear. induction script; cbn; auto.
    + intros input tr (s' & R & M & ->).
      rewrite (proj2 (frame_trace s')). cbn [filter is_frame_begin].
      rewrite !filter_app. rewrite !pass_trace. cbv zeta.
      repeat match goal with |- context [active ?i ?s] => destruct (active i s) end;
        reflexivity.
  - rewrite (concat_count is_frame_end (fun _ => true) _ _ _ F).
    + clear. induction script; cbn; auto.
    + intros input tr (s' & R & M & ->).
      rewrite (proj2 (frame_trace s')). cbn [filter is_frame_end].
      rewrite !filter_app. rewrite !pass_trace. cbv zeta.
      repeat match goal with |- context [active ?i ?s] => destruct (active i s) end;
        reflexivity.
  - refine (concat_count_each (fun l => List.length (flat_map drawn_transform l)) 4 _
              script _ eq_refl _ F _).
    + intros b1 b2. rewrite flat_map_app, length_app. reflexivity.
    + intros input tr (s' & R & M & ->).
      pose proof (running_frame_summary s' R) as K. cbv zeta in K.
      destruct K as (_ & _ & _ & K4 & _). unfold drawn_matrices in K4. rewrite K4.
      destruct (first_holder (pointer s') registry) as [i | ] eqn:Hit.
      * apply first_holder_registry in Hit.
        rewrite length_app, !repeat_length.
        destruct Hit as [<- | [<- | [<- | [<- | []]]]]; reflexivity.
      * apply repeat_length.
  - refine (concat_count_each (fun l => List.length (filter is_composite l)) 4 _
              script _ eq_refl _ F _).
    + intros b1 b2. rewrite filter_app, length_app. reflexivity.
    + intros input tr (s' & R & M & ->).
      pose proof (running_frame_summary s' R) as K. cbv zeta in K.
      destruct K as (_ & _ & _ & _ & K5). rewrite K5. reflexivity.
Qed.

End RunClaims.

Section ResourceClaims.

Context {G : Type} {gz : RayGizmo G}.
Variable image_size : string -> Z * Z.

Lemma cleanup_keeps (s : State G) :
  let s' := exec cleanup s in
  gl_ids s' = gl_ids s /\ view s' = view s /\ mouse_offset s' = mouse_offset s
  /\ mouse_scale s' = mouse_scale s /\ crateTransform s' = crateTransform s.
Proof.
  destruct s. unfold cleanup, for_upto. change (Z.to_nat VIEWPORT_COUNT) with 4%nat.
  cbn [for_from].
  cbv [bind read record ret exec fst snd load store UnloadRenderTexture UnloadTexture
       UnloadModel CloseWindow crateModel_var crateTexture_var view_at calls crateTexture
       crateModel view set_calls gl_ids mouse_offset mouse_scale crateTransform].
  repeat split; reflexivity.
Qed.

(** The loop allocates nothing and keeps the texture of the model. *)
Lemma main_loop_keeps (script : list FrameInput) (s : State G) :
  running s ->
  gl_ids (exec (main_loop script) s) = gl_ids s
  /\ model_albedo (crateModel (exec (main_loop script) s)) = model_albedo (crateModel s).
Proof.
  revert s. induction script as [ | input rest IH]; intros s Hs; [ split; reflexivity | ].
  cbn [main_loop]. rewrite !exec_bind.
  destruct (poll_outcome input s) as (_ & _ & _ & _ & M & _ & _ & I & R).
  cbv zeta in M, I, R. specialize (R Hs).
  destruct (running_frame_layout _ R) as (_ & _ & F3 & F4 & _).
  destruct (IH _ (proj1 (frame_running _ R))) as [A B].
  change (exec (ret tt)) with (fun x : State G => x) in *.
  split.
  - rewrite A, F3, I. reflexivity.
  - rewrite B, F4, M. reflexivity.
Qed.

(** Each frame of the loop starts in a running state that holds the input
    of the frame and has the model's texture as the loop found it. *)
Lemma frames_running_albedo (script : list FrameInput) (s : State G) :
  running s ->
  Forall2 (fun input tr =>
             exists s', running s' /\ mouse_current s' = fi_mouse input
                        /\ model_albedo (crateModel s') = model_albedo (crateModel s)
                        /\ tr = emitted frame s')
          script (frame_traces script s).
Proof.
  revert s. induction script as [ | input rest IH]; intros s Hs; cbn [frame_traces].
  - constructor.
  - destruct (poll_outcome input s) as (M & _ & _ & _ & A & _ & _ & _ & R).
    cbv zeta in M, A, R. specialize (R Hs).
    constructor.
    + exists (exec (poll input) s). rewrite A. auto.
    + destruct (running_frame_layout _ R) as (_ & _ & _ & F4 & _).
      pose proof (IH _ (proj1 (frame_running _ R))) as K.
      rewrite F4, A in K. exact K.
Qed.

(** X6.  Whatever the frames, a run of [main] loads its resources before
    the loop and nowhere else: one texture, one model and four render
    targets of 480 x 270, as many as the cleanup releases.  It ends with
    the 13 GPU object ids of the setup, with the viewport array as the setup
    left it, and with no mouse remap in force. *)
Theorem resources_of_a_run (script : list FrameInput) :
  let s := exec (main image_size script) process_start in
  filter is_load (calls s)
  = [ call_LoadTexture "resources/textures/crate_texture.jpg";
      call_LoadModel "resources/models/crate_model.obj";
      call_LoadRenderTexture 480 270; call_LoadRenderTexture 480 270;
      call_LoadRenderTexture 480 270; call_LoadRenderTexture 480 270 ]
  /\ gl_ids s = 13
  /\ view s = view (exec (initialization image_size) process_start)
  /\ List.length (view s) = 4%nat
  /\ remap_identity s.
Proof.
  cbv zeta. split.
  - destruct (main_calls image_size script) as [model ->].
    rewrite !filter_app.
    assert (S : filter is_load (setup_calls image_size)
                = [ call_LoadTexture "resources/textures/crate_texture.jpg";
                    call_LoadModel "resources/models/crate_model.obj";
                    call_LoadRenderTexture 480 270; call_LoadRenderTexture 480 270;
                    call_LoadRenderTexture 480 270; call_LoadRenderTexture 480 270 ])
      by (vm_compute; reflexivity).
    rewrite S. cbn [teardown_calls filter is_load].
    destruct (initialization_outcome image_size) as (R0 & _).
    rewrite (concat_filter_nil is_load _ _ _ (frames_running script _ R0)).
    + reflexivity.
    + intros input tr (s' & R & M & ->).
      rewrite (proj2 (frame_trace s')). cbn [filter is_load].
      rewrite !filter_app. rewrite !pass_trace. cbv zeta.
      repeat match goal with |- context [active ?i ?s] => destruct (active i s) end;
        reflexivity.
  - rewrite exec_main.
    destruct (initialization_outcome image_size) as (R0 & _). cbv zeta in R0.
    destruct (main_loop_running script _ R0) as ([V R] & _).
    destruct (main_loop_keeps script _ R0) as [I _].
    destruct (cleanup_keeps (exec (main_loop script)
                                  (exec (initialization image_size) process_start)))
      as (C1 & C2 & C3 & C4 & _).
    cbv zeta in C1, C2, C3, C4.
    assert (I0 : gl_ids (exec (initialization image_size) process_start) = 13)
      by (vm_compute; reflexivity).
    unfold remap_identity. rewrite C1, C2, C3, C4, I, I0, V, (proj1 R0).
    split; [ reflexivity | ]. split; [ reflexivity | ]. split; [ reflexivity | ].
    exact R.
Qed.

(** X7.  Every model draw of a run draws the crate with the crate texture
    that the setup put in its material, at the origin, unscaled and
    untinted: writing the world matrix into the model each pass leaves its
    material alone. *)
Theorem every_model_draw_is_the_crate (script : list FrameInput) :
  Forall (draws_crate
            (mkTexture 1 (fst (image_size "resources/textures/crate_texture.jpg"))
                         (snd (image_size "resources/textures/crate_texture.jpg"))))
         (calls (exec (main image_size script) process_start)).
Proof.
  destruct (main_calls image_size script) as [model ->].
  destruct (initialization_outcome image_size) as (R0 & _).
  assert (A0 : model_albedo (crateModel (exec (initialization image_size) process_start))
               = mkTexture 1 (fst (image_size "resources/textures/crate_texture.jpg"))
                             (snd (image_size "resources/textures/crate_texture.jpg")))
    by (vm_compute; reflexivity).
  apply Forall_app. split; [ | apply Forall_app; split ].
  - unfold setup_calls.
    assert (S : filter (fun c => match c with call_DrawModel _ _ _ _ => true | _ => false end)
                       (calls (exec (initialization image_size) process_start)) = [])
      by (vm_compute; reflexivity).
    revert S. generalize (calls (exec (initialization image_size) process_start)).
    intros l. induction l as [ | c l IH]; [ constructor | ].
    cbn [filter]. destruct c; intros S; try discriminate S; constructor;
      try exact I; apply IH, S.
  - apply Forall_concat.
    pose proof (frames_running_albedo script _ R0) as F. rewrite A0 in F.
    induction F as [ | input tr l ls (s' & R & M & A & ->) _ IH]; constructor; [ | exact IH].
    destruct (running_frame_layout s' R) as (_ & _ & _ & _ & F5).
    rewrite A in F5. exact F5.
  - unfold teardown_calls. repeat constructor.
Qed.

End ResourceClaims.

Lemma last_app_default {A : Type} (l1 l2 : list A) (d : A) :
  last (l1 ++ l2) d = last l2 (last l1 d).
Proof.
  destruct l2 as [ | x l2] using rev_ind.
  - rewrite app_nil_r. reflexivity.
  - rewrite app_assoc, !last_last. reflexivity.
Qed.

Section CleanupClaims.

Context {G : Type} {gz : RayGizmo G}.
Variable image_size : string -> Z * Z.

(** A pass draws the model once, with the world matrix of the transform it
    finds, and leaves that matrix in the model. *)
Lemma pass_model (i : Z) (s : State G) :
  drawn_matrices (emitted (viewport_pass i) s) = [GizmoToMatrix (crateTransform s)]
  /\ crateModel (exec (viewport_pass i) s)
     = mkModel (GizmoToMatrix (crateTransform s)) (model_albedo (crateModel s)).
Proof.
  split.
  - rewrite pass_trace. cbv zeta. unfold drawn_matrices.
    rewrite !flat_map_app. destruct (active i s); reflexivity.
  - rewrite exec_pass. unfold pass_outcome. destruct (active i s); reflexivity.
Qed.

(** A frame draws the model four times and leaves in it the matrix of the
    last draw. *)
Lemma frame_model (s : State G) :
  exists m0 m1 m2 m3,
    drawn_matrices (emitted frame s) = [m0; m1; m2; m3]
    /\ crateModel (exec frame s) = mkModel m3 (model_albedo (crateModel s)).
Proof.
  exists (GizmoToMatrix (crateTransform (pass_start s 0))),
         (GizmoToMatrix (crateTransform (pass_start s 1))),
         (GizmoToMatrix (crateTransform (pass_start s 2))),
         (GizmoToMatrix (crateTransform (pass_start s 3))).
  split.
  - rewrite (proj2 (frame_trace s)). unfold drawn_matrices.
    cbn [flat_map drawn_transform app]. rewrite !flat_map_app.
    fold (drawn_matrices (emitted (viewport_pass 0) (pass_start s 0))).
    fold (drawn_matrices (emitted (viewport_pass 1) (pass_start s 1))).
    fold (drawn_matrices (emitted (viewport_pass 2) (pass_start s 2))).
    fold (drawn_matrices (emitted (viewport_pass 3) (pass_start s 3))).
    rewrite !(proj1 (pass_model _ _)). reflexivity.
  - assert (F : exec frame s = exec EndDrawing (pass_start s 4)).
    { unfold pass_start, frame, for_upto. rewrite !exec_bind. reflexivity. }
    rewrite F.
    change (crateModel (exec EndDrawing (pass_start s 4)))
      with (crateModel (pass_start s 4)).
    rewrite (pass_start_next s 3), (proj2 (pass_model _ _)).
    rewrite (pass_start_next s 2), (proj2 (pass_model _ _)).
    rewrite (pass_start_next s 1), (proj2 (pass_model _ _)).
    rewrite (pass_start_next s 0), (proj2 (pass_model _ _)).
    reflexivity.
Qed.

(** After the loop the model holds the matrix of the last draw of the loop,
    or the one it had if no frame ran, and the texture it had. *)
Lemma main_loop_model (script : list FrameInput) (s : State G) :
  crateModel (exec (main_loop script) s)
  = mkModel (last (drawn_matrices (List.concat (frame_traces script s)))
                  (model_transform (crateModel s)))
            (model_albedo (crateModel s)).
Proof.
  revert s. induction script as [ | input rest IH]; intros s.
  - cbn. destruct (crateModel s). reflexivity.
  - cbn [main_loop frame_traces List.concat]. rewrite !exec_bind, IH.
    destruct (poll_outcome input s) as (_ & _ & _ & _ & M & _). cbv zeta in M.
    destruct (frame_model (exec (poll input) s)) as (m0 & m1 & m2 & m3 & D & E).
    unfold drawn_matrices in *.
    rewrite flat_map_app, last_app_default, D, E, M. reflexivity.
Qed.

(** C8.  Every run of [main] that leaves its loop, after whatever frames,
    ends with the same seven calls: the render target of each of the four
    viewports is unloaded, in the order of the array, then the crate
    texture and the crate model are unloaded and the window is closed.
    The texture unloaded is the one the setup loaded; the model unloaded is
    the one the setup loaded, with that texture in its material and with
    the world matrix of the last model draw of the run, or the matrix it
    was loaded with if the window was closed before the first frame.
    Nothing is released before that, the four render targets are distinct,
    so each is released exactly once, and [main] returns 0. *)
Theorem C8_cleanup_runs_once (script : list FrameInput) :
  let s := exec (main image_size script) process_start in
  let loaded := exec (initialization image_size) process_start in
  let tex := mkTexture 1 (fst (image_size "resources/textures/crate_texture.jpg"))
                         (snd (image_size "resources/textures/crate_texture.jpg")) in
  fst (main image_size script process_start) = 0
  /\ (exists body,
        calls s
        = body ++ [ call_UnloadRenderTexture (rt (registry_entry 0));
                    call_UnloadRenderTexture (rt (registry_entry 1));
                    call_UnloadRenderTexture (rt (registry_entry 2));
                    call_UnloadRenderTexture (rt (registry_entry 3));
                    call_UnloadTexture tex;
                    call_UnloadModel
                      (mkModel (last (drawn_matrices body) MatrixIdentity) tex);
                    call_CloseWindow ]
        /\ filter is_release body = [])
  /\ crateTexture loaded = tex
  /\ crateModel loaded = mkModel MatrixIdentity tex
  /\ map rt (view loaded) = map rt (map registry_entry [0; 1; 2; 3])
  /\ NoDup (map rt_id (map rt (map registry_entry [0; 1; 2; 3]))).
Proof.
  cbv zeta. split; [ apply main_returns | ].
  assert (M0 : crateModel (exec (initialization image_size) process_start)
               = mkModel MatrixIdentity
                   (mkTexture 1 (fst (image_size "resources/textures/crate_texture.jpg"))
                                (snd (image_size "resources/textures/crate_texture.jpg"))))
    by (vm_compute; reflexivity).
  assert (D0 : drawn_matrices (calls (exec (initialization image_size) process_start)) = [])
    by (vm_compute; reflexivity).
  split.
  - rewrite exec_main.
    destruct (initialization_outcome image_size) as (R0 & _ & F0 & T0).
    cbv zeta in R0, F0, T0.
    destruct (main_loop_running script _ R0) as (R1 & T1 & body & C1 & F1).
    rewrite (cleanup_calls _ (proj1 R1)), T1, T0, main_loop_model, M0.
    cbn [model_transform model_albedo].
    rewrite main_loop_calls.
    exists (calls (exec (initialization image_size) process_start)
            ++ List.concat (frame_traces script
                              (exec (initialization image_size) process_start))).
    split.
    + unfold drawn_matrices in *. rewrite flat_map_app, D0. reflexivity.
    + rewrite main_loop_calls in C1. apply app_inv_head in C1. rewrite C1.
      rewrite filter_app, F0, F1. reflexivity.
  - split; [ vm_compute; reflexivity | ].
    split; [ exact M0 | ].
    split; [ vm_compute; reflexivity | ].
    assert (E : map rt_id (map rt (map registry_entry [0; 1; 2; 3])) = [2; 5; 8; 11])
      by (vm_compute; reflexivity).
    rewrite E. repeat (apply NoDup_cons; [ cbn [In]; lia | ]). apply NoDup_nil.
Qed.

End CleanupClaims.

Section FrameSequenceClaims.

Context {G : Type} {gz : RayGizmo G}.
Variable image_size : string -> Z * Z.

Lemma main_loop_app (l1 l2 : list FrameInput) (s : State G) :
  exec (main_loop (l1 ++ l2)) s = exec (main_loop l2) (exec (main_loop l1) s).
Proof.
  revert s. induction l1 as [ | input l1 IH]; intros s; [reflexivity | ].
  cbn [app main_loop]. rewrite !exec_bind. apply IH.
Qed.

Lemma main_loop_single (input : FrameInput) (s : State G) :
  exec (main_loop [input]) s = exec frame (exec (poll input) s).
Proof.
  unfold exec. cbn [main_loop]. unfold bind, ret.
  destruct (poll input s) as [? s1]. cbn [snd].
  destruct (frame s1) as [? s2]. reflexivity.
Qed.

(** A frame with the pointer outside the window, in terms of its input. *)
Lemma frame_outside (s : State G) (input : FrameInput) :
  running s -> mouse_current s = fi_mouse input -> in_window input = false ->
  filter (fun c => is_remap c || is_gizmo_draw c) (emitted frame s) = []
  /\ crateTransform (exec frame s) = crateTransform s
  /\ drawn_matrices (emitted frame s) = repeat (GizmoToMatrix (crateTransform s)) 4.
Proof.
  intros Hrun Hm Hw.
  rewrite <- (running_input s input Hrun Hm), hit_in_window in Hw.
  pose proof (running_frame_summary s Hrun) as F. cbv zeta in F.
  destruct (first_holder (pointer s) registry); [discriminate Hw | ].
  destruct F as (_ & F2 & F3 & F4 & _). auto.
Qed.

Lemma frames_outside (script : list FrameInput) (s : State G) :
  running s ->
  forallb (fun input => negb (in_window input)) script = true ->
  crateTransform (exec (main_loop script) s) = crateTransform s
  /\ filter (fun c => is_remap c || is_gizmo_draw c) (List.concat (frame_traces script s)) = []
  /\ drawn_matrices (List.concat (frame_traces script s))
     = repeat (GizmoToMatrix (crateTransform s)) (4 * List.length script).
Proof.
  revert s. induction script as [ | input rest IH]; intros s Hs Hout.
  - repeat split; reflexivity.
  - cbn [forallb] in Hout. apply andb_true_iff in Hout. destruct Hout as [Hin Hrest].
    apply negb_true_iff in Hin.
    cbn [main_loop frame_traces List.concat List.length]. rewrite !exec_bind.
    destruct (poll_outcome input s) as (M & _ & _ & T & _ & _ & _ & _ & R).
    cbv zeta in M, T, R. specialize (R Hs).
    destruct (frame_outside _ input R M Hin) as (A & B & C).
    destruct (IH _ (proj1 (frame_running _ R)) Hrest) as (A' & B' & C').
    rewrite B, T in A', C'.
    unfold drawn_matrices in *. rewrite filter_app, flat_map_app, A, B', C, C', T.
    rewrite <- repeat_app.
    repeat split; [ exact A' | f_equal; lia ].
Qed.

(** X8.  In a run of [main] whose pointer is outside the window in every
    frame, no gizmo is ever drawn and no mouse remap installed, the crate
    transform at the end is the one [GizmoIdentity] gave at the start, and
    each of the 4 n model draws of the n frames uses the world matrix of
    that transform. *)
Theorem run_with_the_pointer_outside (script : list FrameInput) :
  forallb (fun input => negb (in_window input)) script = true ->
  let s := exec (main image_size script) process_start in
  filter (fun c => is_remap c || is_gizmo_draw c) (calls s) = []
  /\ crateTransform s = GizmoIdentity
  /\ drawn_matrices (calls s)
     = repeat (GizmoToMatrix GizmoIdentity) (4 * List.length script).
Proof.
  intros Hout. cbv zeta.
  destruct (initialization_outcome image_size) as (R0 & T0 & _). cbv zeta in R0, T0.
  destruct (frames_outside script _ R0 Hout) as (A & B & C). rewrite T0 in A, C.
  split; [ | split ].
  - destruct (main_calls image_size script) as [model ->].
    rewrite !filter_app, B.
    assert (S : filter (fun c => is_remap c || is_gizmo_draw c) (setup_calls image_size) = [])
      by (vm_compute; reflexivity).
    rewrite S. reflexivity.
  - rewrite exec_main.
    destruct (cleanup_keeps (exec (main_loop script)
                                  (exec (initialization image_size) process_start)))
      as (_ & _ & _ & _ & K).
    cbv zeta in K. rewrite K. exact A.
  - destruct (main_calls image_size script) as [model ->].
    unfold drawn_matrices in *. rewrite !flat_map_app, C.
    assert (S : flat_map drawn_transform (setup_calls image_size) = [])
      by (vm_compute; reflexivity).
    rewrite S. cbn [teardown_calls flat_map drawn_transform app].
    rewrite app_nil_r. reflexivity.
Qed.

(** X9.  What a frame leaves is what the next frame starts with, but for
    the input: the state in which the frame after [before ++ [input]]
    begins is the state the frame with [input] ended in, with the new input
    polled.  So the transform a gizmo call left is the one the first
    viewport of the next frame is drawn with. *)
Theorem frames_follow_each_other (before : list FrameInput) (input next : FrameInput) :
  let s := at_frame image_size before input in
  let s' := at_frame image_size (before ++ [input]) next in
  s' = exec (poll next) (exec frame s)
  /\ crateTransform s' = crateTransform (exec frame s)
  /\ gizmo s' = gizmo (exec frame s)
  /\ exists later,
       drawn_matrices (emitted frame s')
       = GizmoToMatrix (crateTransform (exec frame s)) :: later.
Proof.
  cbv zeta.
  assert (E : at_frame image_size (before ++ [input]) next
              = exec (poll next) (exec frame (at_frame image_size before input))).
  { unfold at_frame. rewrite main_loop_app, main_loop_single. reflexivity. }
  destruct (at_frame_running image_size (before ++ [input]) next) as [Hrun _].
  revert E Hrun. generalize (at_frame image_size (before ++ [input]) next).
  generalize (exec frame (at_frame image_size before input)).
  intros s1 s' E Hrun.
  destruct (poll_outcome next s1) as (_ & _ & _ & T & _ & _ & Gz & _).
  cbv zeta in T, Gz. rewrite <- E in T, Gz.
  split; [ exact E | ]. split; [ exact T | ]. split; [ exact Gz | ].
  pose proof (running_frame_summary s' Hrun) as F. cbv zeta in F.
  destruct F as (_ & _ & _ & F4 & _). rewrite F4, T.
  destruct (first_holder (pointer s') registry); cbn [repeat app]; eexists; reflexivity.
Qed.

(** X10.  Which viewport draws the gizmo in a frame, and which remap it
    installs, depends on the pointer of that frame alone: not on the frames
    before it, hence not on what the gizmo did or which viewport had it. *)
Theorem selection_has_no_memory (before before' : list FrameInput) (input : FrameInput) :
  let s := at_frame image_size before input in
  let s' := at_frame image_size before' input in
  gizmo_targets None (emitted frame s) = gizmo_targets None (emitted frame s')
  /\ filter is_remap (emitted frame s) = filter is_remap (emitted frame s')
  /\ gizmo_targets None (emitted frame s)
     = match first_holder (window_pointer (fi_mouse input)) registry with
       | Some i => [rt (nth i registry garbage_viewport)]
       | None => []
       end.
Proof.
  cbv zeta.
  destruct (at_frame_running image_size before input) as [Hrun Hm].
  destruct (at_frame_running image_size before' input) as [Hrun' Hm'].
  revert Hrun Hm Hrun' Hm'.
  generalize (at_frame image_size before input), (at_frame image_size before' input).
  intros s s' Hrun Hm Hrun' Hm'.
  pose proof (running_frame_summary s Hrun) as F. cbv zeta in F.
  pose proof (running_frame_summary s' Hrun') as F'. cbv zeta in F'.
  destruct F as (F1 & F2 & _), F' as (F1' & F2' & _).
  rewrite <- (filter_filter is_remap (fun c => is_remap c || is_gizmo_draw c)
                (emitted frame s))
    by (intros a ->; reflexivity).
  rewrite <- (filter_filter is_remap (fun c => is_remap c || is_gizmo_draw c)
                (emitted frame s'))
    by (intros a ->; reflexivity).
  rewrite F1, F1', F2, F2'.
  rewrite (pointer_running s Hrun), (pointer_running s' Hrun'), Hm, Hm'.
  destruct (first_holder (window_pointer (fi_mouse input)) registry);
    repeat split; reflexivity.
Qed.

Lemma not_finite_outside (input : FrameInput) :
  (not_finite (v2x (fi_mouse input)) || not_finite (v2y (fi_mouse input)))%bool = true ->
  in_window input = false.
Proof.
  unfold in_window. rewrite collision_axes. cbn [v2x v2y].
  destruct input as [[x y] ld]. cbn [fi_mouse v2x v2y].
  intros H. apply orb_true_iff in H. destruct H as [H | H].
  - destruct x as [ | [ | ] | | ]; try discriminate H; reflexivity.
  - apply andb_false_iff. right.
    destruct y as [ | [ | ] | | ]; try discriminate H; reflexivity.
Qed.

(** X11.  A frame whose pointer has a coordinate that is a NaN or an
    infinity is a frame with the pointer outside the window: no viewport
    takes it, no gizmo is drawn, no remap is installed and the crate
    transform is left as it was. *)
Theorem pointer_that_is_not_finite (before : list FrameInput) (input : FrameInput) :
  (not_finite (v2x (fi_mouse input)) || not_finite (v2y (fi_mouse input)))%bool = true ->
  let s := at_frame image_size before input in
  first_holder (pointer s) (view s) = None
  /\ filter (fun c => is_remap c || is_gizmo_draw c) (emitted frame s) = []
  /\ crateTransform (exec frame s) = crateTransform s.
Proof.
  intros H. cbv zeta. apply not_finite_outside in H.
  destruct (at_frame_running image_size before input) as [Hrun Hm].
  revert Hrun Hm. generalize (at_frame image_size before input). intros s Hrun Hm.
  destruct (frame_outside s input Hrun Hm H) as (A & B & _).
  split; [ | split; assumption ].
  rewrite <- (running_input s input Hrun Hm), hit_in_window in H.
  rewrite (proj1 Hrun).
  destruct (first_holder (pointer s) registry); [discriminate H | reflexivity].
Qed.

End FrameSequenceClaims.

Section GizmoClaims.

Context {G : Type} {gz : RayGizmo G}.
Variable image_size : string -> Z * Z.

Lemma running_frame_gizmo (s : State G) :
  running s ->
  gizmo (exec frame s)
  = match first_holder (pointer s) registry with
    | Some i =>
        fst (gizmo_result (nth i registry garbage_viewport)
                          (set_mode3d (Some (camera (nth i registry garbage_viewport))) s))
    | None => gizmo s
    end.
Proof.
  intros [V R].
  assert (H : (holders (pointer s) (map area (view s)) <= 1)%nat).
  { rewrite V, registry_areas. apply quadrants_one_holder. }
  pose proof (frame_layout s (registry_entry 0) (registry_entry 1) (registry_entry 2)
                (registry_entry 3) V R H) as F.
  cbv zeta in F. rewrite V in F.
  destruct F as (_ & _ & _ & _ & _ & F6). exact F6.
Qed.

(** X12.  In a frame of [main] the gizmo library is entered once if a
    viewport is under the pointer, in translate mode, with the pointer
    remapped to that viewport, the button of the frame's input and the
    camera of that viewport, on the state and the transform the frame began
    with; what it returns is the state and the transform the frame ends
    with.  In any other frame neither changes.  The state the first frame
    begins with is the library's initial state after [SetGizmoSize(4.0f)]. *)
Theorem what_the_gizmo_is_given (before : list FrameInput) (input : FrameInput) :
  let s := at_frame image_size before input in
  match first_holder (pointer s) (view s) with
  | Some i =>
      let v := nth i (view s) garbage_viewport in
      (gizmo (exec frame s), crateTransform (exec frame s))
      = gizmo_draw GIZMO_TRANSLATE
                   (mkGizmoInput (remapped v s) (fi_left_down input) (Some (camera v)))
                   (gizmo s) (crateTransform s)
  | None => gizmo (exec frame s) = gizmo s /\ crateTransform (exec frame s) = crateTransform s
  end
  /\ gizmo (at_frame image_size [] input) = gizmo_set_size (F32.of_int 4) gizmo_start.
Proof.
  cbv zeta. split.
  - destruct (at_frame_running image_size before input) as [Hrun _].
    assert (L : mouse_left_down (at_frame image_size before input) = fi_left_down input).
    { unfold at_frame. apply (poll_outcome input). }
    revert Hrun L. generalize (at_frame image_size before input). intros s Hrun L.
    pose proof (running_frame_summary s Hrun) as F. cbv zeta in F.
    destruct F as (_ & _ & F3 & _).
    rewrite (running_frame_gizmo s Hrun), F3, (proj1 Hrun).
    destruct (first_holder (pointer s) registry) as [i | ]; [ | split; reflexivity ].
    cbv zeta. unfold gizmo_result. rewrite <- L.
    destruct s; cbn [mouse_left_down mode3d gizmo crateTransform set_mode3d remapped
                     mouse_current].
    destruct (gizmo_draw _ _ _ _); reflexivity.
  - assert (I : gizmo (exec (initialization image_size) process_start)
                = gizmo_set_size (F32.of_int 4) gizmo_start)
      by (vm_compute; reflexivity).
    revert I. unfold at_frame. generalize (exec (initialization image_size) process_start).
    intros s I. destruct s. exact I.
Qed.

End GizmoClaims.

(** The run of X8 occurs: two frames, the pointer right of the window and
    then left of it. *)
Lemma run_with_the_pointer_outside_witness :
  let script := [input_at 2000 2000 true; input_at (-5) 10 false] in
  forallb (fun input => negb (in_window input)) script = true
  /\ crateTransform (exec (main (gz := GizmoSpec.drag_library) disk script)
                          (process_start (gz := GizmoSpec.drag_library)))
     = GizmoSpec.GizmoIdentity.
Proof.
  cbv zeta.
  assert (H : forallb (fun input => negb (in_window input))
                      [input_at 2000 2000 true; input_at (-5) 10 false] = true)
    by (vm_compute; reflexivity).
  split; [ exact H | ].
  exact (proj1 (proj2 (run_with_the_pointer_outside (gz := GizmoSpec.drag_library) disk
                         [input_at 2000 2000 true; input_at (-5) 10 false] H))).
Defined.

(** The frame of X11 occurs: the pointer's first coordinate is a NaN. *)
Lemma pointer_that_is_not_finite_witness :
  let input := mkFrameInput (mkVector2 S754_nan (F32.of_int 100)) true in
  let s := at_frame (gz := GizmoSpec.drag_library) disk [] input in
  (not_finite (v2x (fi_mouse input)) || not_finite (v2y (fi_mouse input)))%bool = true
  /\ crateTransform (exec (frame (gz := GizmoSpec.drag_library)) s) = crateTransform s.
Proof.
  cbv zeta. split; [ reflexivity | ].
  exact (proj2 (proj2 (pointer_that_is_not_finite (gz := GizmoSpec.drag_library) disk []
                         (mkFrameInput (mkVector2 S754_nan (F32.of_int 100)) true)
                         eq_refl))).
Defined.
